(** * Dashboard client (app/static/js/dashboard.js): model and properties

    The file under study is a browser script with module-level mutable
    state (four chart objects, the history buffer, the history bound) and a
    set of event handlers.  The model below is a shallow embedding:

    - JavaScript numbers are IEEE-754 doubles and are modelled by Rocq's
      primitive binary64 floats, so [+], [-], [/] and the comparisons are
      the very operations the script performs;
    - the uptime counters, which [formatUptime] cuts into days, hours and
      minutes, and the [count] of [generateTraffic] are modelled on
      non-negative integers ([N], [nat]), where double arithmetic and
      integer arithmetic agree below 2^53;
    - arrays are lists ([push] appends at the end, [shift] drops the head);
    - the page is a finite map from element ids to elements, on which
      [document.getElementById] is a lookup;
    - the globals are the fields of one [State] record that every handler
      takes and returns;
    - an [async] handler is cut at its [await]: an [_enter] function runs
      up to the suspension and returns what the closure captured, a
      [_resume] function runs the rest from the settled promise, on
      whatever state the page has at that time.

    Left out, as no handler reads them back: the look of the charts
    (colours, axes, gradients), the redraw requested by [chart.update()],
    the markup of a notification around its message.

    The first part holds the model, the second part the properties. *)

From Stdlib Require Import PrimFloat.
From Stdlib Require Import NArith DecimalString.
From stdpp Require Import base option list strings gmap fin_maps.

Local Open Scope string_scope.

(** ** JavaScript values and builtins used by the script *)

Module Js.

(** [Math.max(a, b)]: NaN if either argument is NaN, otherwise the
    larger one, with +0 above -0. *)
Definition Math_max (a b : float) : float :=
  if (is_nan a || is_nan b)%bool then nan
  else if (b <? a)%float then a
  else if (a <? b)%float then b
  else if get_sign a then b else a.

(** [x || 0] on an optional numeric property: [undefined], [NaN], [0]
    and [-0] are falsy. *)
Definition or_zero (x : option float) : float :=
  match x with
  | None => zero
  | Some v => if (is_nan v || is_zero v)%bool then zero else v
  end.

(** The integers a double holds exactly and on which the script's
    divisions, remainders and [Math.floor] agree with integer arithmetic:
    those below 2^53. *)
Definition safe_integer (n : N) : Prop := (n < 2 ^ 53)%N.

(** Template-literal rendering of a non-negative integer. *)
Definition show_N (n : N) : string :=
  NilZero.string_of_uint (N.to_uint n).

Definition show_nat (n : nat) : string := show_N (N.of_nat n).

(** [a.slice(start)] on an array, [start] already an integer: a
    negative [start] counts from the end, and [-0] is [0]. *)
Definition slice {A} (start : Z) (a : list A) : list A :=
  let len := Z.of_nat (length a) in
  let k := if (start <? 0)%Z then Z.max (len + start) 0 else Z.min start len in
  drop (Z.to_nat k) a.

(** [a.push(x)] and [a.shift()], as functions on the array contents. *)
Definition push {A} (a : list A) (x : A) : list A := a ++ [x].
Definition shift {A} (a : list A) : list A := drop 1 a.

(** The conversions of a number to text are the engine's; the script only
    calls them. *)
Class NumberFormat := {
  toFixed : float -> nat -> string;   (* x.toFixed(d) *)
  toString : float -> string          (* `${x}` *)
}.

(** A settled promise. *)
Inductive settled (A : Type) : Type :=
| Fulfilled (a : A)
| Rejected.
Arguments Fulfilled {A} a.
Arguments Rejected {A}.

(** [p.catch(() => {})]: a rejection becomes a fulfilment with
    [undefined]. *)
Definition catch_ignore {A} (p : settled A) : settled (option A) :=
  match p with
  | Fulfilled a => Fulfilled (Some a)
  | Rejected => Fulfilled None
  end.

(** [Promise.all(ps)]: fulfilled with all the values when every promise
    is fulfilled, rejected as soon as one is. *)
Fixpoint Promise_all {A} (ps : list (settled A)) : settled (list A) :=
  match ps with
  | [] => Fulfilled []
  | Fulfilled a :: ps' =>
      match Promise_all ps' with
      | Fulfilled l => Fulfilled (a :: l)
      | Rejected => Rejected
      end
  | Rejected :: _ => Rejected
  end.

End Js.

(** ** Data model *)

(** The [system] object of a snapshot. *)
Module System.
Record t := {
  cpu_percent : float;
  cpu_count : float;
  cpu_freq_current : float;
  memory_percent : float;
  memory_used_gb : float;
  memory_total_gb : float;
  disk_percent : float;
  disk_used_gb : float;
  disk_total_gb : float;
  network_bytes_sent : float;
  network_bytes_recv : float;
  hostname : string;
  platform : string;
  python_version : string;
  uptime_seconds : N
}.
End System.

(** The [app] object of a snapshot; [cpu_percent] may be absent. *)
Module App.
Record t := {
  total_users : float;
  total_requests : float;
  threads_count : float;
  memory_usage_mb : float;
  cpu_percent : option float;
  active_connections : float;
  uptime_seconds : N
}.
End App.

Record Snapshot := {
  system : System.t;
  app : App.t
}.

Record HistoryPoint := {
  timestamp : string;
  cpu : float;
  memory : float;
  disk : float;
  app_memory : float;
  app_cpu : float;
  connections : float;
  network_sent : float;
  network_recv : float
}.

(** The part of a Chart.js object the script reads and writes:
    [chart.data.labels] and [chart.data.datasets[i].data]. *)
Record Dataset := { data : list float }.

Record Chart := {
  labels : list string;
  datasets : list Dataset
}.

(** A page element: its content ([innerHTML]; a [textContent] write is
    recorded in the same field), its class and its [disabled] flag. *)
Record Element := {
  innerHTML : string;
  className : string;
  disabled : bool
}.

Record Toast := {
  toast_className : string;
  toast_body : string
}.

(** Callbacks handed to [setTimeout]. *)
Inductive Callback :=
| CbUpdateEnhancedDashboard
| CbMemoryTestDone.

(** The module-level variables, the page and the effects on the outside
    world (requests sent, timers armed, console lines). *)
Record State := {
  performanceChart : option Chart;
  resourceChart : option Chart;
  appPerformanceChart : option Chart;
  networkChart : option Chart;
  systemHistory : list HistoryPoint;
  maxHistoryPoints : nat;
  document : gmap string Element;
  toasts : list Toast;
  console : list string;
  requests : list string;
  timers : list (Callback * nat)
}.

(** Field updates of [State] (assignments to the globals). *)
Definition set_performanceChart (c : option Chart) (s : State) : State :=
  {| performanceChart := c; resourceChart := resourceChart s;
     appPerformanceChart := appPerformanceChart s; networkChart := networkChart s;
     systemHistory := systemHistory s; maxHistoryPoints := maxHistoryPoints s;
     document := document s; toasts := toasts s; console := console s;
     requests := requests s; timers := timers s |}.

Definition set_resourceChart (c : option Chart) (s : State) : State :=
  {| performanceChart := performanceChart s; resourceChart := c;
     appPerformanceChart := appPerformanceChart s; networkChart := networkChart s;
     systemHistory := systemHistory s; maxHistoryPoints := maxHistoryPoints s;
     document := document s; toasts := toasts s; console := console s;
     requests := requests s; timers := timers s |}.

Definition set_appPerformanceChart (c : option Chart) (s : State) : State :=
  {| performanceChart := performanceChart s; resourceChart := resourceChart s;
     appPerformanceChart := c; networkChart := networkChart s;
     systemHistory := systemHistory s; maxHistoryPoints := maxHistoryPoints s;
     document := document s; toasts := toasts s; console := console s;
     requests := requests s; timers := timers s |}.

Definition set_networkChart (c : option Chart) (s : State) : State :=
  {| performanceChart := performanceChart s; resourceChart := resourceChart s;
     appPerformanceChart := appPerformanceChart s; networkChart := c;
     systemHistory := systemHistory s; maxHistoryPoints := maxHistoryPoints s;
     document := document s; toasts := toasts s; console := console s;
     requests := requests s; timers := timers s |}.

Definition set_systemHistory (h : list HistoryPoint) (s : State) : State :=
  {| performanceChart := performanceChart s; resourceChart := resourceChart s;
     appPerformanceChart := appPerformanceChart s; networkChart := networkChart s;
     systemHistory := h; maxHistoryPoints := maxHistoryPoints s;
     document := document s; toasts := toasts s; console := console s;
     requests := requests s; timers := timers s |}.

Definition set_maxHistoryPoints (n : nat) (s : State) : State :=
  {| performanceChart := performanceChart s; resourceChart := resourceChart s;
     appPerformanceChart := appPerformanceChart s; networkChart := networkChart s;
     systemHistory := systemHistory s; maxHistoryPoints := n;
     document := document s; toasts := toasts s; console := console s;
     requests := requests s; timers := timers s |}.

Definition set_document (d : gmap string Element) (s : State) : State :=
  {| performanceChart := performanceChart s; resourceChart := resourceChart s;
     appPerformanceChart := appPerformanceChart s; networkChart := networkChart s;
     systemHistory := systemHistory s; maxHistoryPoints := maxHistoryPoints s;
     document := d; toasts := toasts s; console := console s;
     requests := requests s; timers := timers s |}.

Definition set_toasts (t : list Toast) (s : State) : State :=
  {| performanceChart := performanceChart s; resourceChart := resourceChart s;
     appPerformanceChart := appPerformanceChart s; networkChart := networkChart s;
     systemHistory := systemHistory s; maxHistoryPoints := maxHistoryPoints s;
     document := document s; toasts := t; console := console s;
     requests := requests s; timers := timers s |}.

Definition set_console (c : list string) (s : State) : State :=
  {| performanceChart := performanceChart s; resourceChart := resourceChart s;
     appPerformanceChart := appPerformanceChart s; networkChart := networkChart s;
     systemHistory := systemHistory s; maxHistoryPoints := maxHistoryPoints s;
     document := document s; toasts := toasts s; console := c;
     requests := requests s; timers := timers s |}.

Definition set_requests (r : list string) (s : State) : State :=
  {| performanceChart := performanceChart s; resourceChart := resourceChart s;
     appPerformanceChart := appPerformanceChart s; networkChart := networkChart s;
     systemHistory := systemHistory s; maxHistoryPoints := maxHistoryPoints s;
     document := document s; toasts := toasts s; console := console s;
     requests := r; timers := timers s |}.

Definition set_timers (t : list (Callback * nat)) (s : State) : State :=
  {| performanceChart := performanceChart s; resourceChart := resourceChart s;
     appPerformanceChart := appPerformanceChart s; networkChart := networkChart s;
     systemHistory := systemHistory s; maxHistoryPoints := maxHistoryPoints s;
     document := document s; toasts := toasts s; console := console s;
     requests := requests s; timers := t |}.

(** Updates of one element, and of one chart. *)
Definition set_innerHTML (html : string) (e : Element) : Element :=
  {| innerHTML := html; className := className e; disabled := disabled e |}.

Definition set_className (c : string) (e : Element) : Element :=
  {| innerHTML := innerHTML e; className := c; disabled := disabled e |}.

Definition set_disabled (b : bool) (e : Element) : Element :=
  {| innerHTML := innerHTML e; className := className e; disabled := b |}.

Definition set_labels (l : list string) (c : Chart) : Chart :=
  {| labels := l; datasets := datasets c |}.

Definition set_datasets (d : list Dataset) (c : Chart) : Chart :=
  {| labels := labels c; datasets := d |}.

(** [chart.data.datasets[i].data = xs].  Where the chart has no dataset
    [i] the script raises a [TypeError]; the update below then changes
    nothing, so a property of a write is stated for a chart that has the
    dataset (see [has_datasets], which the reachable states keep). *)
Definition set_dataset_data (i : nat) (xs : list float) (c : Chart) : Chart :=
  set_datasets (alter (fun _ => {| data := xs |}) i (datasets c)) c.

(** [const el = document.getElementById(id); if (el) el.textContent = text] *)
Definition write_text (id text : string) (s : State) : State :=
  set_document (alter (set_innerHTML text) id (document s)) s.

(** [fetch(url)]: the request leaves; its outcome comes back at the await. *)
Definition fetch (url : string) (s : State) : State :=
  set_requests (Js.push (requests s) url) s.

Definition setTimeout (cb : Callback) (ms : nat) (s : State) : State :=
  set_timers (Js.push (timers s) (cb, ms)) s.

Definition console_log (line : string) (s : State) : State :=
  set_console (Js.push (console s) line) s.

(** ** Notifications *)

(** The container is found by its id once created.  The children of the
    container, which [appendChild] extends, are the [toasts] field of the
    state, in document order: the page map holds an element's own content,
    class and flag, not its child elements.  A banner is kept as its class
    and its message; its markup around the message, the Bootstrap object
    that shows it and its removal once hidden are left out. *)
Definition createToastContainer (s : State) : State :=
  set_document
    (<["toast-container" :=
        {| innerHTML := EmptyString;
           className := "toast-container position-fixed top-0 end-0 p-3";
           disabled := false |}]> (document s)) s.

Definition showToast (message type : string) (s : State) : State :=
  let s1 := match document s !! "toast-container" with
            | Some _ => s
            | None => createToastContainer s
            end in
  set_toasts
    (Js.push (toasts s1)
       {| toast_className :=
            "toast align-items-center text-white bg-"
            ++ (if String.eqb type "error" then "danger" else type)
            ++ " border-0";
          toast_body := message |}) s1.

(** ** Chart set-up *)

Definition setupEnhancedPerformanceChart (s : State) : State :=
  match document s !! "performanceChart" with
  | None => s
  | Some _ =>
      set_performanceChart
        (Some {| labels := [];
                 datasets := [ {| data := [] |}; {| data := [] |};
                               {| data := [] |}; {| data := [] |} ] |}) s
  end.

Definition setupEnhancedResourceChart (s : State) : State :=
  match document s !! "resourceChart" with
  | None => s
  | Some _ =>
      set_resourceChart
        (Some {| labels := ["CPU Usage"; "Memory Usage"; "Disk Usage"; "Available"];
                 datasets := [ {| data := [0; 0; 0; 100]%float |} ] |}) s
  end.

Definition setupAppPerformanceChart (s : State) : State :=
  match document s !! "appPerformanceChart" with
  | None => s
  | Some _ =>
      set_appPerformanceChart
        (Some {| labels := [];
                 datasets := [ {| data := [] |}; {| data := [] |} ] |}) s
  end.

Definition setupNetworkChart (s : State) : State :=
  match document s !! "networkChart" with
  | None => s
  | Some _ =>
      set_networkChart
        (Some {| labels := [];
                 datasets := [ {| data := [] |}; {| data := [] |} ] |}) s
  end.

(** ** History recorder *)

(** [now] is the value of [new Date().toLocaleTimeString()] at the call. *)
Definition historyPoint (now : string) (d : Snapshot) : HistoryPoint :=
  {| timestamp := now;
     cpu := System.cpu_percent (system d);
     memory := System.memory_percent (system d);
     disk := System.disk_percent (system d);
     app_memory := App.memory_usage_mb (app d);
     app_cpu := Js.or_zero (App.cpu_percent (app d));
     connections := App.active_connections (app d);
     network_sent := System.network_bytes_sent (system d);
     network_recv := System.network_bytes_recv (system d) |}.

Definition storeSystemHistory (now : string) (d : Snapshot) (s : State) : State :=
  let h := Js.push (systemHistory s) (historyPoint now d) in
  if (maxHistoryPoints s <? length h)%nat
  then set_systemHistory (Js.shift h) s
  else set_systemHistory h s.

(** Recording a sequence of snapshots, each with the clock reading of its
    call. *)
Definition record_all (inputs : list (string * Snapshot)) (s : State) : State :=
  foldl (fun acc i => storeSystemHistory i.1 i.2 acc) s inputs.

(** ** Uptime formatting *)

(** On [N], with exact quotients and remainders: this is the script's
    result for the integers below 2^53 ([Js.safe_integer]), where the
    division of doubles followed by [Math.floor] is the integer quotient
    and the numbers print as plain decimals.  Above, the script rounds. *)

Definition formatUptime (seconds : N) : string :=
  let days := (seconds / 86400)%N in
  let hours := ((seconds mod 86400) / 3600)%N in
  let minutes := ((seconds mod 3600) / 60)%N in
  if (0 <? days)%N then Js.show_N days ++ "d " ++ Js.show_N hours ++ "h"
  else if (0 <? hours)%N then Js.show_N hours ++ "h " ++ Js.show_N minutes ++ "m"
  else Js.show_N minutes ++ "m".

(** ** Metric cards, system information and charts *)

(** The double-quote character, for the markup the script writes. *)
Definition dq : string :=
  String (Ascii.Ascii false true false false false true false false) EmptyString.

Section Rendering.
Context `{Js.NumberFormat}.

Definition updateEnhancedMetricCards (d : Snapshot) (s : State) : State :=
  let sy := system d in
  (* CPU metrics *)
  let s := write_text "cpu-usage" (Js.toFixed (System.cpu_percent sy) 1 ++ "%") s in
  let s := write_text "cpu-details"
             (Js.toString (System.cpu_count sy) ++ " cores @ "
              ++ Js.toFixed (System.cpu_freq_current sy / 1000)%float 1 ++ " GHz") s in
  (* Memory metrics *)
  let s := write_text "memory-usage" (Js.toFixed (System.memory_percent sy) 1 ++ "%") s in
  let s := write_text "memory-details"
             (Js.toString (System.memory_used_gb sy) ++ " / "
              ++ Js.toString (System.memory_total_gb sy) ++ " GB") s in
  (* Disk metrics *)
  let s := write_text "disk-usage" (Js.toFixed (System.disk_percent sy) 1 ++ "%") s in
  let s := write_text "disk-details"
             (Js.toString (System.disk_used_gb sy) ++ " / "
              ++ Js.toString (System.disk_total_gb sy) ++ " GB") s in
  (* Network metrics *)
  let s :=
    match document s !! "network-usage", document s !! "network-details" with
    | Some _, Some _ =>
        let sent := System.network_bytes_sent sy in
        let recv := System.network_bytes_recv sy in
        let networkMB := ((sent + recv) / (1024 * 1024))%float in
        let s := write_text "network-usage" (Js.toFixed networkMB 1 ++ " MB") s in
        write_text "network-details"
          ("↑" ++ Js.toFixed (sent / (1024 * 1024))%float 1
           ++ " ↓" ++ Js.toFixed (recv / (1024 * 1024))%float 1) s
    | _, _ => s
    end in
  (* User and request metrics *)
  let s := write_text "total-users" (Js.toString (App.total_users (app d))) s in
  let s := write_text "total-requests" (Js.toString (App.total_requests (app d))) s in
  write_text "requests-details" (Js.toString (App.threads_count (app d)) ++ " threads") s.

Definition updateSystemInformation (d : Snapshot) (s : State) : State :=
  let s := write_text "hostname" (System.hostname (system d)) s in
  let s := write_text "platform" (System.platform (system d)) s in
  let s := write_text "python-version" ("v" ++ System.python_version (system d)) s in
  let s := write_text "system-uptime" (formatUptime (System.uptime_seconds (system d))) s in
  write_text "app-uptime" (formatUptime (App.uptime_seconds (app d))) s.

(** The remainder shown as the fourth slice of the resource chart. *)
Definition available (d : Snapshot) : float :=
  let total := (System.cpu_percent (system d) + System.memory_percent (system d)
                + System.disk_percent (system d))%float in
  Js.Math_max 0 (300 - total)%float.

Definition updateAllCharts (d : Snapshot) (s : State) : State :=
  let h := systemHistory s in
  (* performance chart *)
  let s :=
    match performanceChart s with
    | Some c =>
        if (0 <? length h)%nat then
          let c := set_labels (timestamp <$> h) c in
          let c := set_dataset_data 0 (cpu <$> h) c in
          let c := set_dataset_data 1 (memory <$> h) c in
          let c := set_dataset_data 2 (disk <$> h) c in
          let c := set_dataset_data 3 (app_memory <$> h) c in
          set_performanceChart (Some c) s
        else s
    | None => s
    end in
  (* resource chart *)
  let s :=
    match resourceChart s with
    | Some c =>
        let sy := system d in
        let c := set_dataset_data 0
                   [System.cpu_percent sy; System.memory_percent sy;
                    System.disk_percent sy; available d] c in
        let s := set_resourceChart (Some c) s in
        let s := write_text "resource-cpu" (Js.toFixed (System.cpu_percent sy) 1 ++ "%") s in
        let s := write_text "resource-memory" (Js.toFixed (System.memory_percent sy) 1 ++ "%") s in
        write_text "resource-disk" (Js.toFixed (System.disk_percent sy) 1 ++ "%") s
    | None => s
    end in
  (* application performance chart *)
  let s :=
    match appPerformanceChart s with
    | Some c =>
        if (0 <? length h)%nat then
          let c := set_labels (timestamp <$> h) c in
          let c := set_dataset_data 0 (app_cpu <$> h) c in
          let c := set_dataset_data 1 (connections <$> h) c in
          set_appPerformanceChart (Some c) s
        else s
    | None => s
    end in
  (* network chart *)
  match networkChart s with
  | Some c =>
      if (0 <? length h)%nat then
        let c := set_labels (timestamp <$> h) c in
        let c := set_dataset_data 0 (network_sent <$> h) c in
        let c := set_dataset_data 1 (network_recv <$> h) c in
        set_networkChart (Some c) s
      else s
  | None => s
  end.

(** ** The refresh *)

Definition badge_healthy (e : Element) : Element :=
  set_className "badge bg-success fs-6"
    (set_innerHTML ("<i class=" ++ dq ++ "bi bi-check-circle" ++ dq
                    ++ "></i> System Healthy") e).

Definition badge_error (e : Element) : Element :=
  set_className "badge bg-danger fs-6"
    (set_innerHTML ("<i class=" ++ dq ++ "bi bi-exclamation-triangle" ++ dq
                    ++ "></i> Connection Error") e).

(** Up to [await fetch('/api/dashboard-data')]. *)
Definition updateEnhancedDashboard_enter (s : State) : State :=
  fetch "/api/dashboard-data" s.

(** From the settled [fetch] on.  [resp] is the outcome of [fetch]; when
    fulfilled it carries the outcome of [response.json()].  [now] is the
    clock reading [storeSystemHistory] takes. *)
Definition updateEnhancedDashboard_resume
    (now : string) (resp : Js.settled (Js.settled Snapshot)) (s : State) : State :=
  match resp with
  | Js.Fulfilled (Js.Fulfilled d) =>
      let s := console_log "Dashboard data received:" s in
      let s := updateEnhancedMetricCards d s in
      let s := updateSystemInformation d s in
      let s := storeSystemHistory now d s in
      let s := updateAllCharts d s in
      set_document (alter badge_healthy "status-badge" (document s)) s
  | _ =>
      let s := console_log "Error updating enhanced dashboard:" s in
      set_document (alter badge_error "status-badge" (document s)) s
  end.

(** The whole call, when nothing else runs while it is suspended. *)
Definition updateEnhancedDashboard
    (now : string) (resp : Js.settled (Js.settled Snapshot)) (s : State) : State :=
  updateEnhancedDashboard_resume now resp (updateEnhancedDashboard_enter s).

Definition initializeEnhancedDashboard (s : State) : State :=
  let s := setupEnhancedPerformanceChart s in
  let s := setupEnhancedResourceChart s in
  let s := setupAppPerformanceChart s in
  let s := setupNetworkChart s in
  updateEnhancedDashboard_enter s.

Definition refreshMetrics (s : State) : State :=
  let s := updateEnhancedDashboard_enter s in
  showToast "All metrics refreshed!" "info" s.

End Rendering.

(** ** Demo actions *)

(** What the closure of a button handler keeps across its [await]:
    [const button = event.target] and
    [const originalText = button.innerHTML]. *)
Record Pending := {
  button : string;
  originalText : string
}.

Definition spinner (text : string) : string :=
  "<span class=" ++ dq ++ "loading-spinner" ++ dq ++ "></span> " ++ text.

(** The two assignments before [try]: the busy label, then
    [button.disabled = true]. *)
Definition busy (target label : string) (s : State) : State :=
  set_document
    (alter (fun e => set_disabled true (set_innerHTML (spinner label) e))
       target (document s)) s.

(** The [finally] block of the three button handlers. *)
Definition restore (p : Pending) (s : State) : State :=
  set_document
    (alter (fun e => set_disabled false (set_innerHTML (originalText p) e))
       (button p) (document s)) s.

(** One turn of the loop of [generateTraffic]: the promises pushed at
    index [i], named by their URL. *)
Definition traffic_step (promises : list string) (i : nat) : list string :=
  let promises := Js.push promises "/api/health" in
  let promises := if (i mod 5 =? 0)%nat then Js.push promises "/api/metrics" else promises in
  if (i mod 10 =? 0)%nat then Js.push promises "/api/users" else promises.

(** [for (let i = 0; i < count; i++) ...] *)
Definition traffic_promises (count : nat) : list string :=
  foldl traffic_step [] (seq 0 count).

(** [generateTraffic(count)] up to [await Promise.all(promises)].  [target]
    is [event.target]; [None] is the [TypeError] of reading [innerHTML] on a
    target that is no element, raised before anything is done. *)
Definition generateTraffic_enter (count : nat) (target : string) (s : State)
  : option (Pending * State) :=
  e ← document s !! target;
  let p := {| button := target; originalText := innerHTML e |} in
  let s := busy target "Generating Traffic..." s in
  let s := showToast ("Firing " ++ Js.show_nat count ++ " requests...") "info" s in
  let s := foldl (fun acc url => fetch url acc) s (traffic_promises count) in
  Some (p, s).

(** From the settled requests on.  [outcomes] are the outcomes of the
    [fetch] calls, in the order of [promises]; each went through
    [.catch(() => {})] before [Promise.all]. *)
Definition generateTraffic_resume
    (count : nat) (p : Pending) (outcomes : list (Js.settled unit)) (s : State) : State :=
  let s :=
    match Js.Promise_all (Js.catch_ignore <$> outcomes) with
    | Js.Fulfilled _ =>
        let s := showToast (Js.show_nat count ++ " requests completed!") "success" s in
        setTimeout CbUpdateEnhancedDashboard 500 s
    | Js.Rejected =>
        let s := showToast "Error generating traffic" "error" s in
        console_log "Traffic generation error:" s
    end in
  restore p s.

Definition simulateWork_enter (target : string) (s : State) : option (Pending * State) :=
  e ← document s !! target;
  let p := {| button := target; originalText := innerHTML e |} in
  let s := busy target "Working..." s in
  let s := fetch "/api/simulate-work" s in
  Some (p, s).

(** [resp]: outcome of [fetch], carrying the outcome of [response.json()]. *)
Definition simulateWork_resume
    (p : Pending) (resp : Js.settled (Js.settled unit)) (s : State) : State :=
  let s :=
    match resp with
    | Js.Fulfilled (Js.Fulfilled _) => showToast "Work simulation completed!" "success" s
    | _ => showToast "Error simulating work" "error" s
    end in
  restore p s.

Definition stressTest_enter (target : string) (s : State) : option (Pending * State) :=
  e ← document s !! target;
  let p := {| button := target; originalText := innerHTML e |} in
  let s := busy target "Testing..." s in
  let s := foldl (fun acc _ => fetch "/api/simulate-work" acc) s (seq 0 5) in
  Some (p, s).

Definition stressTest_resume
    (p : Pending) (outcomes : list (Js.settled unit)) (s : State) : State :=
  let s :=
    match Js.Promise_all outcomes with
    | Js.Fulfilled _ => showToast "CPU stress test completed!" "warning" s
    | Js.Rejected => showToast "Stress test failed" "error" s
    end in
  restore p s.

(** [memoryTest] reads no [event.target] and awaits nothing: a toast, a
    local array, a timer. *)
Definition memoryTest (s : State) : State :=
  let s := showToast "Memory usage will increase temporarily" "info" s in
  setTimeout CbMemoryTestDone 3000 s.

(** The timer callback of [memoryTest], three seconds later. *)
Definition memoryTest_done (s : State) : State :=
  showToast "Memory test completed" "success" s.

(** ** Clear and time range *)

(** [chart.data.labels = []; chart.data.datasets.forEach(d => d.data = [])] *)
Definition clear_chart (c : Chart) : Chart :=
  {| labels := []; datasets := (fun _ => {| data := [] |}) <$> datasets c |}.

Definition clearData (s : State) : State :=
  let s := set_systemHistory [] s in
  let s := set_performanceChart (clear_chart <$> performanceChart s) s in
  let s := set_appPerformanceChart (clear_chart <$> appPerformanceChart s) s in
  let s := set_networkChart (clear_chart <$> networkChart s) s in
  showToast "Chart data cleared!" "info" s.

(** The [switch] of [updateChartTimeRange]: strict equality with the three
    strings, no [default]. *)
Definition select_bound (timeRange : string) (s : State) : State :=
  if String.eqb timeRange "1m" then set_maxHistoryPoints 20 s
  else if String.eqb timeRange "5m" then set_maxHistoryPoints 50 s
  else if String.eqb timeRange "15m" then set_maxHistoryPoints 150 s
  else s.

(** [timeRange] is a global the script reads and never declares (a
    selector of the page is expected to set it); it is an argument here. *)
Definition updateChartTimeRange (timeRange : string) (s : State) : State :=
  let s := select_bound timeRange s in
  let s :=
    if (maxHistoryPoints s <? length (systemHistory s))%nat
    then set_systemHistory
           (Js.slice (- Z.of_nat (maxHistoryPoints s)) (systemHistory s)) s
    else s in
  showToast ("Time range set to " ++ timeRange) "info" s.

(** ** Reachable states *)

(** The page before the script runs: no chart, empty history, bound 50. *)
Definition initial (page : gmap string Element) : State :=
  {| performanceChart := None; resourceChart := None;
     appPerformanceChart := None; networkChart := None;
     systemHistory := []; maxHistoryPoints := 50;
     document := page; toasts := []; console := [];
     requests := []; timers := [] |}.

Section Reachable.
Context `{Js.NumberFormat}.

(** One event-loop turn: a handler of the script, or the resumption of
    one of its suspended handlers. *)
Inductive step : State -> State -> Prop :=
| step_initialize s :
    step s (initializeEnhancedDashboard s)
| step_refresh_enter s :
    step s (updateEnhancedDashboard_enter s)
| step_refresh_resume now resp s :
    step s (updateEnhancedDashboard_resume now resp s)
| step_refreshMetrics s :
    step s (refreshMetrics s)
| step_clearData s :
    step s (clearData s)
| step_timeRange tr s :
    step s (updateChartTimeRange tr s)
| step_traffic_enter count target p s s' :
    generateTraffic_enter count target s = Some (p, s') -> step s s'
| step_traffic_resume count p outcomes s :
    step s (generateTraffic_resume count p outcomes s)
| step_work_enter target p s s' :
    simulateWork_enter target s = Some (p, s') -> step s s'
| step_work_resume p resp s :
    step s (simulateWork_resume p resp s)
| step_stress_enter target p s s' :
    stressTest_enter target s = Some (p, s') -> step s s'
| step_stress_resume p outcomes s :
    step s (stressTest_resume p outcomes s)
| step_memoryTest s :
    step s (memoryTest s)
| step_memoryTest_done s :
    step s (memoryTest_done s).

Inductive reachable : State -> Prop :=
| reachable_initial page : reachable (initial page)
| reachable_step s s' : reachable s -> step s s' -> reachable s'.

End Reachable.

(** The history never holds more points than the bound allows. *)
Definition history_bounded (s : State) : Prop :=
  length (systemHistory s) <= maxHistoryPoints s.

(** ** The uptime format as the specification words it *)

(** "The largest two non-zero units among days, hours, minutes": the units
    that are zero are left out, the first two of the rest are shown. *)
Definition largest_two_nonzero_units (seconds : N) : string :=
  let days := (seconds / 86400)%N in
  let hours := ((seconds mod 86400) / 3600)%N in
  let minutes := ((seconds mod 3600) / 60)%N in
  let units := [(days, "d"); (hours, "h"); (minutes, "m")] in
  let shown := take 2 (List.filter (fun u => (0 <? u.1)%N) units) in
  String.concat " " ((fun u => Js.show_N u.1 ++ u.2) <$> shown).

(** ** Frames and invariants *)

(** [s'] has the buffer and the bound of [s]. *)
Definition same_buffer (s s' : State) : Prop :=
  systemHistory s' = systemHistory s /\ maxHistoryPoints s' = maxHistoryPoints s.

(** [s'] has the chart objects of [s]. *)
Definition same_charts (s s' : State) : Prop :=
  performanceChart s' = performanceChart s
  /\ resourceChart s' = resourceChart s
  /\ appPerformanceChart s' = appPerformanceChart s
  /\ networkChart s' = networkChart s.

(** [s'] differs from [s] at most in the page, the toasts, the console,
    the request log and the timers. *)
Definition unchanged (s s' : State) : Prop :=
  same_buffer s s' /\ same_charts s s'.

(** The charts have the datasets their set-up gave them: the indices the
    script writes at ([datasets[0]] to [datasets[3]]) exist. *)
Definition has_datasets (n : nat) (c : option Chart) : Prop :=
  forall ch, c = Some ch -> length (datasets ch) = n.

Definition chart_shapes (s : State) : Prop :=
  has_datasets 4 (performanceChart s)
  /\ has_datasets 1 (resourceChart s)
  /\ has_datasets 2 (appPerformanceChart s)
  /\ has_datasets 2 (networkChart s).

(** ** Button handlers: what "disable, then restore" means *)

(** For a handler cut into [enter] and [resume], triggered from the element
    [b] found at [target] in state [s]: entering succeeds and leaves the
    element disabled under the busy label; resuming, with any outcome [out]
    and from any later state [s2] of the page, gives the element its
    original content back and enables it; when nothing else touched an
    element that was enabled, it is [b] again. *)
Definition guards_control {O : Type}
    (enter : string -> State -> option (Pending * State))
    (resume : Pending -> O -> State -> State)
    (label : string) (target : string) (b : Element) (s : State) : Prop :=
  exists p s1,
    enter target s = Some (p, s1)
    /\ document s1 !! target
       = Some (set_disabled true (set_innerHTML (spinner label) b))
    /\ (forall out s2 b2,
          document s2 !! target = Some b2 ->
          document (resume p out s2) !! target
            = Some (set_disabled false (set_innerHTML (innerHTML b) b2)))
    /\ (forall out,
          disabled b = false ->
          document (resume p out s1) !! target = Some b).

(** ** Traffic: the requests of one loop index, and counting them *)

Definition requests_at (i : nat) : list string :=
  ("/api/health"
   :: (if (i mod 5 =? 0)%nat then ["/api/metrics"] else [])
   ++ (if (i mod 10 =? 0)%nat then ["/api/users"] else []))%list.

Definition count_url (url : string) (l : list string) : nat :=
  length (List.filter (String.eqb url) l).

(** ** What a failed refresh may change *)

(** The two ways the refresh fails: [fetch] rejects, or it fulfils and
    [response.json()] rejects. *)
Definition refresh_failures : list (Js.settled (Js.settled Snapshot)) :=
  [Js.Rejected; Js.Fulfilled Js.Rejected].

(** [s'] is [s] but for the status badge, which, where the page has one,
    shows the error rendering.  (The console and the request log are not
    part of what the page shows.) *)
Definition only_badge_flipped (s s' : State) : Prop :=
  systemHistory s' = systemHistory s
  /\ maxHistoryPoints s' = maxHistoryPoints s
  /\ performanceChart s' = performanceChart s
  /\ resourceChart s' = resourceChart s
  /\ appPerformanceChart s' = appPerformanceChart s
  /\ networkChart s' = networkChart s
  /\ toasts s' = toasts s
  /\ timers s' = timers s
  /\ document s' = alter badge_error "status-badge" (document s).

(** ** Empty charts *)

(** An existing chart has no label and no data point. *)
Definition chart_empty (c : option Chart) : Prop :=
  forall ch, c = Some ch ->
    length (labels ch) = 0 /\ Forall (fun ds => length (data ds) = 0) (datasets ch).

(** ** Notions for the further properties *)

(** The banner [showToast(message, type)] appends. *)
Definition banner (message type : string) : Toast :=
  {| toast_className :=
       "toast align-items-center text-white bg-"
       ++ (if String.eqb type "error" then "danger" else type)
       ++ " border-0";
     toast_body := message |}.

(** The three bounds the time-range action can set; 50 is also the initial
    one. *)
Definition selectable_bounds : list nat := [20; 50; 150].

(** Every series of an existing chart has one value per label. *)
Definition chart_aligned (c : option Chart) : Prop :=
  forall ch, c = Some ch ->
    Forall (fun ds => length (data ds) = length (labels ch)) (datasets ch).

(** The resource chart, when it exists, has its four labels and four
    values. *)
Definition resource_wellformed (c : option Chart) : Prop :=
  forall ch, c = Some ch ->
    length (labels ch) = 4 /\ Forall (fun ds => length (data ds) = 4) (datasets ch).

(** The charts the redraw builds from a history [h]. *)
Definition performance_of (h : list HistoryPoint) : Chart :=
  {| labels := timestamp <$> h;
     datasets := [ {| data := cpu <$> h |}; {| data := memory <$> h |};
                   {| data := disk <$> h |}; {| data := app_memory <$> h |} ] |}.

Definition appPerformance_of (h : list HistoryPoint) : Chart :=
  {| labels := timestamp <$> h;
     datasets := [ {| data := app_cpu <$> h |}; {| data := connections <$> h |} ] |}.

Definition network_of (h : list HistoryPoint) : Chart :=
  {| labels := timestamp <$> h;
     datasets := [ {| data := network_sent <$> h |}; {| data := network_recv <$> h |} ] |}.

(** What a redraw makes of a history chart: nothing on an empty buffer, the
    chart of the buffer otherwise. *)
Definition redrawn (mk : list HistoryPoint -> Chart) (h : list HistoryPoint)
    (c : option Chart) : option Chart :=
  match h with
  | [] => c
  | _ :: _ => (fun _ => mk h) <$> c
  end.

(** Two pages have the same elements, each with the same class and the
    same [disabled] flag: they differ in contents only. *)
Definition same_structure (m m' : gmap string Element) : Prop :=
  forall id,
    className <$> (m' !! id) = className <$> (m !! id)
    /\ disabled <$> (m' !! id) = disabled <$> (m !! id).

(** The slots [updateEnhancedMetricCards] and [updateSystemInformation]
    write to. *)
Definition metric_card_slots : list string :=
  [ "cpu-usage"; "cpu-details"; "memory-usage"; "memory-details";
    "disk-usage"; "disk-details"; "network-usage"; "network-details";
    "total-users"; "total-requests"; "requests-details" ].

Definition system_information_slots : list string :=
  [ "hostname"; "platform"; "python-version"; "system-uptime"; "app-uptime" ].

(** The text [updateSystemInformation] puts in each of its slots. *)
Definition system_information_text (d : Snapshot) : list (string * string) :=
  [ ("hostname", System.hostname (system d));
    ("platform", System.platform (system d));
    ("python-version", "v" ++ System.python_version (system d));
    ("system-uptime", formatUptime (System.uptime_seconds (system d)));
    ("app-uptime", formatUptime (App.uptime_seconds (app d))) ].

(** The values of [timeRange] the [switch] knows, with their bounds. *)
Definition time_ranges : list (string * nat) :=
  [("1m", 20); ("5m", 50); ("15m", 150)].

(** A chart variable after its set-up function: a new chart when the page
    has the canvas, the variable as it was otherwise. *)
Definition chart_after_setup
    (canvas : option Element) (fresh : Chart) (old : option Chart) : option Chart :=
  match canvas with
  | Some _ => Some fresh
  | None => old
  end.

(** Which of the four charts exist. *)
Definition chart_presence (s : State) : list bool :=
  [ bool_decide (is_Some (performanceChart s));
    bool_decide (is_Some (resourceChart s));
    bool_decide (is_Some (appPerformanceChart s));
    bool_decide (is_Some (networkChart s)) ].

Definition is_fulfilled {A} (p : Js.settled A) : bool :=
  match p with
  | Js.Fulfilled _ => true
  | Js.Rejected => false
  end.

Section RefreshStages.
Context `{Js.NumberFormat}.

(** The state in which the refresh records its point: the cards and the
    system information are written. *)
Definition cards_written (d : Snapshot) (s : State) : State :=
  updateSystemInformation d
    (updateEnhancedMetricCards d (console_log "Dashboard data received:" s)).

(** The state the refresh has reached before it writes the badge. *)
Definition redrawn_state (now : string) (d : Snapshot) (s : State) : State :=
  updateAllCharts d (storeSystemHistory now d (cards_written d s)).

End RefreshStages.

(** What the reachable states keep. *)
Definition dashboard_invariant (s : State) : Prop :=
  history_bounded s
  /\ maxHistoryPoints s ∈ selectable_bounds
  /\ chart_shapes s
  /\ chart_aligned (performanceChart s)
  /\ chart_aligned (appPerformanceChart s)
  /\ chart_aligned (networkChart s)
  /\ resource_wellformed (resourceChart s).

(** ** Sample inputs, used to run the model *)

Definition sample_snapshot (cpu_pct mem_pct disk_pct : float) : Snapshot :=
  {| system :=
       {| System.cpu_percent := cpu_pct; System.cpu_count := 4;
          System.cpu_freq_current := 2400;
          System.memory_percent := mem_pct; System.memory_used_gb := 3.5;
          System.memory_total_gb := 8;
          System.disk_percent := disk_pct; System.disk_used_gb := 12;
          System.disk_total_gb := 120;
          System.network_bytes_sent := 1048576; System.network_bytes_recv := 2097152;
          System.hostname := "cloudrun"; System.platform := "Linux";
          System.python_version := "3.11"; System.uptime_seconds := 90061 |};
     app :=
       {| App.total_users := 3; App.total_requests := 17; App.threads_count := 2;
          App.memory_usage_mb := 64.5; App.cpu_percent := None;
          App.active_connections := 1; App.uptime_seconds := 65 |} |}.

Definition sample_inputs : list (string * Snapshot) :=
  [ ("10:00:00", sample_snapshot 40 30 10);
    ("10:00:05", sample_snapshot 100 100 100);
    ("10:00:10", sample_snapshot 12.5 50 20) ].

Definition sample_button : Element :=
  {| innerHTML := "Run"; className := "btn btn-primary"; disabled := false |}.

Definition sample_page : gmap string Element :=
  {[ "status-badge" := {| innerHTML := "Loading"; className := "badge"; disabled := false |};
     "action-button" := sample_button ]}.

(** A page with the four canvases, and the state once the charts are set up. *)
Definition sample_canvases : gmap string Element :=
  let canvas := {| innerHTML := EmptyString; className := "chart"; disabled := false |} in
  {[ "performanceChart" := canvas; "resourceChart" := canvas;
     "appPerformanceChart" := canvas; "networkChart" := canvas;
     "status-badge" := {| innerHTML := "Loading"; className := "badge"; disabled := false |} ]}.

Definition sample_dashboard : State :=
  initializeEnhancedDashboard (initial sample_canvases).

(** The initial state with the bound lowered to two points. *)
Definition sample_small_bound : State :=
  set_maxHistoryPoints 2 (initial sample_page).

(** A state with twenty-five points in the buffer, under the bound 50. *)
Definition sample_long_history : State :=
  record_all (replicate 25 ("10:00:00", sample_snapshot 40 30 10)) (initial sample_page).

(** A state with three points in the buffer. *)
Definition sample_state : State :=
  record_all sample_inputs (initial sample_page).

(** A stand-in for the engine's conversions of numbers to text, to run the
    model on the samples; the properties hold for every conversion. *)
Definition sample_format : Js.NumberFormat :=
  {| Js.toFixed := fun _ _ => "0.0"; Js.toString := fun _ => "0" |}.

(** The dashboard after two refreshes that received their snapshots: two
    points in the buffer and in the history charts. *)
Definition sample_refreshed : State :=
  updateEnhancedDashboard_resume (H := sample_format) "09:59:55"
    (Js.Fulfilled (Js.Fulfilled (sample_snapshot 100 100 100)))
    (updateEnhancedDashboard_resume (H := sample_format) "09:59:50"
       (Js.Fulfilled (Js.Fulfilled (sample_snapshot 12.5 50 20)))
       sample_dashboard).

(** A page with the network usage slot and without the network details
    slot. *)
Definition sample_half_network : gmap string Element :=
  {[ "network-usage" := {| innerHTML := "-"; className := "h3"; disabled := false |};
     "cpu-usage" := {| innerHTML := "-"; className := "h3"; disabled := false |} ]}.

(** * Properties *)

(** ** Frame lemmas: what the helpers leave alone *)

Lemma showToast_frame message type s :
  systemHistory (showToast message type s) = systemHistory s
  /\ maxHistoryPoints (showToast message type s) = maxHistoryPoints s
  /\ performanceChart (showToast message type s) = performanceChart s
  /\ resourceChart (showToast message type s) = resourceChart s
  /\ appPerformanceChart (showToast message type s) = appPerformanceChart s
  /\ networkChart (showToast message type s) = networkChart s.
Proof.
  unfold showToast, createToastContainer.
  destruct (document s !! "toast-container"); cbn; repeat split; reflexivity.
Qed.

Lemma showToast_history message type s :
  systemHistory (showToast message type s) = systemHistory s.
Proof. apply showToast_frame. Qed.

Lemma showToast_bound message type s :
  maxHistoryPoints (showToast message type s) = maxHistoryPoints s.
Proof. apply showToast_frame. Qed.

Lemma fetch_all_frame {A} (f : A -> string) (l : list A) s :
  let s' := foldl (fun acc x => fetch (f x) acc) s l in
  systemHistory s' = systemHistory s
  /\ maxHistoryPoints s' = maxHistoryPoints s
  /\ document s' = document s
  /\ toasts s' = toasts s.
Proof.
  revert s. induction l as [|x l IH]; intros s; cbn; [done|].
  destruct (IH (fetch (f x) s)) as (-> & -> & -> & ->). done.
Qed.

(** ** The history buffer *)

Lemma storeSystemHistory_bound now d s :
  maxHistoryPoints (storeSystemHistory now d s) = maxHistoryPoints s.
Proof. unfold storeSystemHistory. by case_match. Qed.

Lemma storeSystemHistory_history now d s :
  systemHistory (storeSystemHistory now d s) =
    let h := (systemHistory s ++ [historyPoint now d])%list in
    if (maxHistoryPoints s <? length h)%nat then drop 1 h else h.
Proof. unfold storeSystemHistory, Js.push, Js.shift. by case_match. Qed.

Lemma storeSystemHistory_bounded now d s :
  history_bounded s -> history_bounded (storeSystemHistory now d s).
Proof.
  unfold history_bounded.
  rewrite storeSystemHistory_bound, storeSystemHistory_history. cbv zeta.
  intros Hb. case_match.
  - rewrite length_drop, length_app. cbn. lia.
  - apply Nat.ltb_ge in H. exact H.
Qed.

Lemma record_all_snoc inputs i s :
  record_all (inputs ++ [i])%list s = storeSystemHistory i.1 i.2 (record_all inputs s).
Proof. unfold record_all. by rewrite foldl_app. Qed.

Lemma record_all_bound inputs s :
  maxHistoryPoints (record_all inputs s) = maxHistoryPoints s.
Proof.
  induction inputs as [|i inputs IH] using rev_ind; [done|].
  by rewrite record_all_snoc, storeSystemHistory_bound.
Qed.

(** From an empty buffer the history is the image of the last [B] inputs. *)
Lemma record_all_history inputs s :
  systemHistory s = [] ->
  systemHistory (record_all inputs s) =
    (fun i => historyPoint i.1 i.2) <$> drop (length inputs - maxHistoryPoints s) inputs.
Proof.
  intros Hempty.
  induction inputs as [|i inputs IH] using rev_ind.
  - unfold record_all. cbn. by rewrite Hempty.
  - rewrite record_all_snoc, storeSystemHistory_history, record_all_bound, IH.
    cbn zeta. rewrite !length_app, length_fmap, length_drop. cbn [length].
    set (B := maxHistoryPoints s). set (n := length inputs).
    destruct (Nat.ltb_spec B (n - (n - B) + 1)) as [Hlt|Hge].
    + assert (HB : B <= n) by lia.
      replace (n + 1 - B) with (S (n - B)) by lia.
      destruct (decide (B = 0)) as [HB0|HB0].
      * rewrite !drop_ge; [done | rewrite length_app; cbn; lia |
                           rewrite length_app, length_fmap, length_drop; cbn; lia ].
      * subst B n.
        rewrite (drop_app_le inputs) by lia.
        rewrite fmap_app.
        rewrite drop_app_le by (rewrite length_fmap, length_drop; lia).
        by rewrite <- fmap_drop, drop_drop, Nat.add_1_r.
    + replace (n + 1 - B) with (n - B) by lia.
      subst B n. rewrite drop_app_le by lia.
      by rewrite fmap_app.
Qed.

(** C1. Starting from an empty buffer with bound [B], the buffer never
    holds more than [B] points while a sequence of snapshots is recorded
    through [storeSystemHistory]; after [N] snapshots it holds [min N B]
    points, and they are the points of the last [min N B] snapshots, in
    the order in which they were recorded. *)
Theorem history_holds_most_recent (inputs : list (string * Snapshot)) (s : State) :
  systemHistory s = [] ->
  let B := maxHistoryPoints s in
  let N := length inputs in
  (forall k, length (systemHistory (record_all (take k inputs) s)) <= B)
  /\ length (systemHistory (record_all inputs s)) = N `min` B
  /\ systemHistory (record_all inputs s)
     = (fun i => historyPoint i.1 i.2) <$> drop (N - N `min` B) inputs.
Proof.
  intros Hempty B N. repeat split.
  - intros k. rewrite record_all_history by done.
    rewrite length_fmap, length_drop, length_take. fold B. lia.
  - rewrite record_all_history by done.
    rewrite length_fmap, length_drop. fold B N. lia.
  - rewrite record_all_history by done. fold B N.
    by replace (N - N `min` B) with (N - B) by lia.
Qed.

Lemma history_holds_most_recent_witness :
  systemHistory sample_small_bound = []
  /\ length (systemHistory (record_all sample_inputs sample_small_bound)) = 2
  /\ systemHistory (record_all sample_inputs sample_small_bound)
     = [ historyPoint "10:00:05" (sample_snapshot 100 100 100);
         historyPoint "10:00:10" (sample_snapshot 12.5 50 20) ].
Proof.
  split; [reflexivity|].
  destruct (history_holds_most_recent sample_inputs sample_small_bound eq_refl)
    as (_ & Hlen & Hpts).
  split; [exact Hlen | exact Hpts].
Defined.

(** ** The time range *)

Lemma slice_last {A} (n : nat) (l : list A) :
  0 < n -> Js.slice (- Z.of_nat n) l = drop (length l - n) l.
Proof.
  intros Hn. unfold Js.slice.
  destruct (Z.ltb_spec (- Z.of_nat n) 0) as [_|Hge]; [|lia].
  f_equal. lia.
Qed.

Lemma select_bound_history tr s :
  systemHistory (select_bound tr s) = systemHistory s.
Proof. unfold select_bound. by repeat case_match. Qed.

Lemma updateChartTimeRange_bound tr s :
  maxHistoryPoints (updateChartTimeRange tr s) = maxHistoryPoints (select_bound tr s).
Proof.
  unfold updateChartTimeRange. cbv zeta.
  rewrite showToast_bound. by case_match.
Qed.

Lemma updateChartTimeRange_history tr s :
  0 < maxHistoryPoints (select_bound tr s) ->
  systemHistory (updateChartTimeRange tr s) =
    drop (length (systemHistory s) - maxHistoryPoints (select_bound tr s))
         (systemHistory s).
Proof.
  intros Hpos. unfold updateChartTimeRange. cbv zeta.
  rewrite showToast_history, <- (select_bound_history tr s).
  case_match eqn:Hcmp; cbn.
  - by rewrite slice_last.
  - apply Nat.ltb_ge in Hcmp.
    replace (_ - _) with 0 by lia. by rewrite drop_0.
Qed.

Lemma updateChartTimeRange_bounded tr s :
  history_bounded s -> history_bounded (updateChartTimeRange tr s).
Proof.
  unfold history_bounded. intros Hb.
  rewrite updateChartTimeRange_bound.
  unfold updateChartTimeRange. cbv zeta.
  rewrite showToast_history.
  case_match eqn:Hcmp; cbn.
  - apply Nat.ltb_lt in Hcmp. rewrite select_bound_history in *.
    assert (0 < maxHistoryPoints (select_bound tr s)).
    { unfold select_bound in *. repeat case_match; cbn in *; lia. }
    rewrite slice_last, length_drop by done. lia.
  - by apply Nat.ltb_ge in Hcmp.
Qed.

(** C5. For the recognized values ["1m"], ["5m"], ["15m"] the time-range
    action sets the bound to 20, 50, 150; the buffer is cut to its newest
    [min len B] entries, and when the bound does not shrink below the
    length of the buffer (in particular when it grows, the buffer being
    within the old bound) the buffer is left as it is: nothing evicted
    earlier comes back. *)
Theorem updateChartTimeRange_recognized (tr : string) (B : nat) (s : State) :
  (tr, B) ∈ [("1m", 20); ("5m", 50); ("15m", 150)] ->
  let s' := updateChartTimeRange tr s in
  let len := length (systemHistory s) in
  maxHistoryPoints s' = B
  /\ systemHistory s' = drop (len - len `min` B) (systemHistory s)
  /\ length (systemHistory s') = len `min` B
  /\ (history_bounded s -> maxHistoryPoints s <= B ->
      systemHistory s' = systemHistory s).
Proof.
  intros Hin s' len.
  assert (Hsel : maxHistoryPoints (select_bound tr s) = B /\ 0 < B).
  { rewrite !elem_of_cons, elem_of_nil in Hin.
    destruct Hin as [Heq|[Heq|[Heq|[]]]]; injection Heq as -> ->; cbn; lia. }
  destruct Hsel as [Hsel HB].
  assert (Hhist : systemHistory s' = drop (len - B) (systemHistory s)).
  { unfold s'. rewrite updateChartTimeRange_history; rewrite Hsel; done. }
  repeat split.
  - unfold s'. by rewrite updateChartTimeRange_bound.
  - rewrite Hhist. by replace (len - len `min` B) with (len - B) by lia.
  - rewrite Hhist, length_drop. fold len. lia.
  - unfold history_bounded. fold len. intros Hb Hup.
    rewrite Hhist. replace (len - B) with 0 by lia. by rewrite drop_0.
Qed.

Lemma updateChartTimeRange_recognized_witness :
  ("1m", 20) ∈ [("1m", 20); ("5m", 50); ("15m", 150)]
  /\ length (systemHistory sample_long_history) = 25
  /\ maxHistoryPoints (updateChartTimeRange "1m" sample_long_history) = 20
  /\ length (systemHistory (updateChartTimeRange "1m" sample_long_history)) = 20.
Proof.
  assert (Hin : ("1m", 20) ∈ [("1m", 20); ("5m", 50); ("15m", 150)])
    by (apply list_elem_of_here).
  split; [exact Hin|]. split; [reflexivity|].
  destruct (updateChartTimeRange_recognized "1m" 20 sample_long_history Hin)
    as (Hb & _ & Hlen & _).
  split; [exact Hb | exact Hlen].
Defined.

(** C10. With a [timeRange] other than ["1m"], ["5m"], ["15m"] the action
    leaves the bound as it is, and, the buffer being within that bound,
    leaves the buffer (and the charts) as they are. *)
Theorem updateChartTimeRange_unrecognized (tr : string) (s : State) :
  tr ≠ "1m" -> tr ≠ "5m" -> tr ≠ "15m" ->
  history_bounded s ->
  let s' := updateChartTimeRange tr s in
  maxHistoryPoints s' = maxHistoryPoints s
  /\ systemHistory s' = systemHistory s
  /\ performanceChart s' = performanceChart s
  /\ resourceChart s' = resourceChart s
  /\ appPerformanceChart s' = appPerformanceChart s
  /\ networkChart s' = networkChart s.
Proof.
  intros H1 H5 H15 Hb s'. unfold s', updateChartTimeRange, select_bound.
  apply String.eqb_neq in H1, H5, H15. rewrite H1, H5, H15. cbv zeta.
  unfold history_bounded in Hb. apply Nat.ltb_ge in Hb. rewrite Hb.
  destruct (showToast_frame ("Time range set to " ++ tr) "info" s)
    as (? & ? & ? & ? & ? & ?).
  done.
Qed.

Lemma updateChartTimeRange_unrecognized_witness :
  history_bounded sample_state
  /\ maxHistoryPoints (updateChartTimeRange "1h" sample_state) = 50
  /\ length (systemHistory (updateChartTimeRange "1h" sample_state)) = 3.
Proof.
  assert (Hb : history_bounded sample_state)
    by (unfold history_bounded; vm_compute; lia).
  split; [exact Hb|].
  destruct (updateChartTimeRange_unrecognized "1h" sample_state
              ltac:(discriminate) ltac:(discriminate) ltac:(discriminate) Hb)
    as (Hmax & Hhist & _).
  split; [rewrite Hmax; reflexivity | rewrite Hhist; reflexivity].
Defined.

(** ** Invariants of the reachable states *)

Create HintDb frame.

Lemma unchanged_refl s : unchanged s s.
Proof. done. Qed.

Lemma unchanged_bounded s s' :
  unchanged s s' -> history_bounded s -> history_bounded s'.
Proof. unfold history_bounded. intros [[-> ->] _]. done. Qed.

Lemma unchanged_shapes s s' :
  unchanged s s' -> chart_shapes s -> chart_shapes s'.
Proof. unfold chart_shapes. intros [_ (-> & -> & -> & ->)]. done. Qed.

Lemma unchanged_set_document doc s s' :
  unchanged s s' -> unchanged s (set_document doc s').
Proof. done. Qed.

Lemma unchanged_write_text id text s s' :
  unchanged s s' -> unchanged s (write_text id text s').
Proof. done. Qed.

Lemma unchanged_console_log line s s' :
  unchanged s s' -> unchanged s (console_log line s').
Proof. done. Qed.

Lemma unchanged_fetch url s s' :
  unchanged s s' -> unchanged s (fetch url s').
Proof. done. Qed.

Lemma unchanged_setTimeout cb ms s s' :
  unchanged s s' -> unchanged s (setTimeout cb ms s').
Proof. done. Qed.

Lemma unchanged_busy target label s s' :
  unchanged s s' -> unchanged s (busy target label s').
Proof. done. Qed.

Lemma unchanged_restore p s s' :
  unchanged s s' -> unchanged s (restore p s').
Proof. done. Qed.

Lemma unchanged_showToast message type s s' :
  unchanged s s' -> unchanged s (showToast message type s').
Proof.
  intros Hs. unfold showToast, createToastContainer.
  by destruct (document s' !! "toast-container").
Qed.

Lemma unchanged_fetch_all {A} (f : A -> string) (l : list A) s s' :
  unchanged s s' -> unchanged s (foldl (fun acc x => fetch (f x) acc) s' l).
Proof.
  revert s'. induction l as [|x l IH]; intros s' Hs; cbn; [done|].
  by apply IH, unchanged_fetch.
Qed.

#[export] Hint Resolve unchanged_refl unchanged_set_document unchanged_write_text
  unchanged_console_log unchanged_fetch unchanged_setTimeout unchanged_busy
  unchanged_restore unchanged_showToast unchanged_fetch_all : frame.

Lemma has_datasets_set_data n i xs c :
  has_datasets n (Some c) -> has_datasets n (Some (set_dataset_data i xs c)).
Proof.
  unfold has_datasets. intros Hc ch [= <-]. cbn.
  rewrite length_alter. by apply Hc.
Qed.

Lemma has_datasets_set_labels n l c :
  has_datasets n (Some c) -> has_datasets n (Some (set_labels l c)).
Proof. unfold has_datasets. intros Hc ch [= <-]. cbn. by apply Hc. Qed.

Lemma has_datasets_clear n c :
  has_datasets n c -> has_datasets n (clear_chart <$> c).
Proof.
  unfold has_datasets. intros Hc ch. destruct c as [c|]; [|done].
  intros [= <-]. cbn. rewrite length_fmap. by apply Hc.
Qed.

Section Invariants.
Context `{Js.NumberFormat}.

Lemma unchanged_updateEnhancedMetricCards d s s' :
  unchanged s s' -> unchanged s (updateEnhancedMetricCards d s').
Proof.
  intros Hs. unfold updateEnhancedMetricCards. cbv zeta.
  repeat case_match; auto 20 with frame.
Qed.

Lemma unchanged_updateSystemInformation d s s' :
  unchanged s s' -> unchanged s (updateSystemInformation d s').
Proof. intros Hs. unfold updateSystemInformation. auto 10 with frame. Qed.

Lemma updateAllCharts_buffer d s : same_buffer s (updateAllCharts d s).
Proof. unfold updateAllCharts. cbv zeta. by repeat case_match. Qed.

Lemma updateAllCharts_shapes d s :
  chart_shapes s -> chart_shapes (updateAllCharts d s).
Proof.
  unfold chart_shapes, updateAllCharts. cbv zeta.
  destruct s as [pc rc ac nc h m doc ts cs rs tm]. cbn.
  intros (Hp & Hr & Ha & Hn).
  destruct pc, rc, ac, nc, h; cbn; repeat split;
    repeat (apply has_datasets_set_data || apply has_datasets_set_labels);
    assumption.
Qed.

Lemma storeSystemHistory_charts now d s :
  same_charts s (storeSystemHistory now d s).
Proof. unfold storeSystemHistory. by case_match. Qed.

Lemma setups_buffer s :
  same_buffer s (initializeEnhancedDashboard s).
Proof.
  unfold initializeEnhancedDashboard, setupEnhancedPerformanceChart,
    setupEnhancedResourceChart, setupAppPerformanceChart, setupNetworkChart.
  cbv zeta. by repeat case_match.
Qed.

Lemma setups_shapes s :
  chart_shapes s -> chart_shapes (initializeEnhancedDashboard s).
Proof.
  unfold chart_shapes, has_datasets, initializeEnhancedDashboard,
    setupEnhancedPerformanceChart, setupEnhancedResourceChart,
    setupAppPerformanceChart, setupNetworkChart.
  cbv zeta. intros (Hp & Hr & Ha & Hn).
  repeat case_match; cbn; repeat split; intros ch Hch; simplify_eq; eauto.
Qed.

Lemma resume_bounded now resp s :
  history_bounded s -> history_bounded (updateEnhancedDashboard_resume now resp s).
Proof.
  intros Hb. destruct resp as [[d|]|]; try exact Hb.
  unfold updateEnhancedDashboard_resume. cbv zeta.
  eapply unchanged_bounded; [apply unchanged_set_document, unchanged_refl|].
  unfold history_bounded.
  destruct (updateAllCharts_buffer d
              (storeSystemHistory now d
                 (updateSystemInformation d
                    (updateEnhancedMetricCards d
                       (console_log "Dashboard data received:" s))))) as [-> ->].
  apply storeSystemHistory_bounded.
  eapply unchanged_bounded; [|exact Hb].
  apply unchanged_updateSystemInformation, unchanged_updateEnhancedMetricCards.
  auto with frame.
Qed.

Lemma resume_shapes now resp s :
  chart_shapes s -> chart_shapes (updateEnhancedDashboard_resume now resp s).
Proof.
  intros Hs. destruct resp as [[d|]|]; try exact Hs.
  unfold updateEnhancedDashboard_resume. cbv zeta.
  eapply unchanged_shapes; [apply unchanged_set_document, unchanged_refl|].
  apply updateAllCharts_shapes.
  destruct (storeSystemHistory_charts now d
              (updateSystemInformation d
                 (updateEnhancedMetricCards d
                    (console_log "Dashboard data received:" s))))
    as (Hp & Hr & Ha & Hn).
  unfold chart_shapes. rewrite Hp, Hr, Ha, Hn.
  eapply unchanged_shapes; [|exact Hs].
  apply unchanged_updateSystemInformation, unchanged_updateEnhancedMetricCards.
  auto with frame.
Qed.

Lemma clearData_bounded s : history_bounded (clearData s).
Proof.
  unfold history_bounded, clearData. cbv zeta.
  rewrite showToast_history. cbn. lia.
Qed.

Lemma clearData_shapes s : chart_shapes s -> chart_shapes (clearData s).
Proof.
  intros (Hp & Hr & Ha & Hn). unfold clearData. cbv zeta.
  eapply unchanged_shapes; [apply unchanged_showToast, unchanged_refl|].
  repeat split; cbn; try apply has_datasets_clear; done.
Qed.

Lemma updateChartTimeRange_shapes tr s :
  chart_shapes s -> chart_shapes (updateChartTimeRange tr s).
Proof.
  intros Hs. unfold updateChartTimeRange, select_bound. cbv zeta.
  eapply unchanged_shapes; [apply unchanged_showToast, unchanged_refl|].
  by repeat case_match.
Qed.

(** The handlers other than the refresh, the clear and the time range
    leave buffer, bound and charts alone. *)
Lemma step_invariants s s' :
  step s s' ->
  (history_bounded s -> history_bounded s')
  /\ (chart_shapes s -> chart_shapes s').
Proof.
  assert (Hun : forall s1 s2, unchanged s1 s2 ->
            (history_bounded s1 -> history_bounded s2)
            /\ (chart_shapes s1 -> chart_shapes s2)).
  { intros s1 s2 Hs. split; [by apply unchanged_bounded | by apply unchanged_shapes]. }
  intros Hstep. destruct Hstep.
  - split; [|apply setups_shapes].
    unfold history_bounded. by destruct (setups_buffer s) as [-> ->].
  - apply Hun. unfold updateEnhancedDashboard_enter. auto with frame.
  - split; [apply resume_bounded | apply resume_shapes].
  - apply Hun. unfold refreshMetrics, updateEnhancedDashboard_enter. auto with frame.
  - split; [intros _; apply clearData_bounded | apply clearData_shapes].
  - split; [apply updateChartTimeRange_bounded | apply updateChartTimeRange_shapes].
  - apply Hun. unfold generateTraffic_enter in *.
    destruct (document s !! target) as [e|]; cbn in *; [|done]. simplify_eq.
    apply (unchanged_fetch_all (fun url : string => url)). auto with frame.
  - apply Hun. unfold generateTraffic_resume. cbv zeta.
    case_match; auto with frame.
  - apply Hun. unfold simulateWork_enter in *.
    destruct (document s !! target) as [e|]; cbn in *; [|done]. simplify_eq.
    auto with frame.
  - apply Hun. unfold simulateWork_resume. cbv zeta.
    repeat case_match; auto with frame.
  - apply Hun. unfold stressTest_enter in *.
    destruct (document s !! target) as [e|]; cbn in *; [|done]. simplify_eq.
    auto 10 with frame.
  - apply Hun. unfold stressTest_resume. cbv zeta.
    case_match; auto with frame.
  - apply Hun. unfold memoryTest. auto with frame.
  - apply Hun. unfold memoryTest_done. auto with frame.
Qed.

(** The buffer of a reachable state is within the bound, and its charts
    keep the datasets of their set-up. *)
Lemma reachable_invariants s :
  reachable s -> history_bounded s /\ chart_shapes s.
Proof.
  induction 1 as [page | s s' _ [IHb IHs] Hstep].
  - split; [unfold history_bounded; cbn; lia|].
    repeat split; intros ch Hch; discriminate.
  - destruct (step_invariants s s' Hstep) as [Hb Hs]. auto.
Qed.

End Invariants.

(** ** Uptime *)

(** C7. [formatUptime] gives "0m" for 0, "1m" for 65, "1h 1m" for 3661 and
    "1d 1h" for 90061. *)
Theorem formatUptime_examples :
  formatUptime 0 = "0m"
  /\ formatUptime 65 = "1m"
  /\ formatUptime 3661 = "1h 1m"
  /\ formatUptime 90061 = "1d 1h".
Proof. repeat split; vm_compute; reflexivity. Qed.

(** C6 fails as stated: one day and one minute (86460 seconds) is shown as
    "1d 0h", with a zero unit and without the minutes, where the largest
    two non-zero units are "1d 1m". *)
Lemma formatUptime_shows_zero_hours :
  formatUptime 86460 = "1d 0h"
  /\ largest_two_nonzero_units 86460 = "1d 1m"
  /\ formatUptime 86460 <> largest_two_nonzero_units 86460.
Proof. split; [|split]; vm_compute; [reflexivity | reflexivity | discriminate]. Qed.

Lemma string_app_nil (b : string) : EmptyString ++ b = b.
Proof. reflexivity. Qed.

Lemma string_app_cons (x : Ascii.ascii) (a b : string) :
  String x a ++ b = String x (a ++ b).
Proof. reflexivity. Qed.

Lemma string_app_assoc (a b c : string) : (a ++ b) ++ c = a ++ (b ++ c).
Proof.
  induction a as [|x a IH]; [reflexivity|].
  rewrite !string_app_cons. by f_equal.
Qed.

Lemma string_app_cancel (a b c : string) : a ++ b = a ++ c -> b = c.
Proof.
  induction a as [|x a IH]; [done|].
  rewrite !string_app_cons. intros [= Heq]. auto.
Qed.

Lemma show_N_nonempty (n : N) : Js.show_N n <> EmptyString.
Proof. unfold Js.show_N. by destruct (N.to_uint n). Qed.

(** Appends are put in right-nested form, literals pushed inside. *)
Ltac norm_strings :=
  repeat (rewrite string_app_assoc || rewrite string_app_cons
          || rewrite string_app_nil).

Ltac norm_strings_in H :=
  repeat (rewrite string_app_assoc in H || rewrite string_app_cons in H
          || rewrite string_app_nil in H).

(** Where the last unit [formatUptime] shows is not zero, and only there,
    it prints the largest two non-zero units. *)
Lemma formatUptime_agrees_iff (seconds : N) :
  let days := (seconds / 86400)%N in
  let hours := ((seconds mod 86400) / 3600)%N in
  let minutes := ((seconds mod 3600) / 60)%N in
  (hours < 24)%N /\ (minutes < 60)%N
  /\ ((if (0 <? days)%N then (0 <? hours)%N else (0 <? minutes)%N) = true
      <-> formatUptime seconds = largest_two_nonzero_units seconds).
Proof.
  intros days hours minutes.
  assert (Hh : (hours < 24)%N).
  { unfold hours. apply N.Div0.div_lt_upper_bound.
    pose proof (N.mod_upper_bound seconds 86400). lia. }
  assert (Hm : (minutes < 60)%N).
  { unfold minutes. apply N.Div0.div_lt_upper_bound.
    pose proof (N.mod_upper_bound seconds 3600). lia. }
  split; [exact Hh|]. split; [exact Hm|].
  unfold formatUptime, largest_two_nonzero_units.
  fold days hours minutes. cbv zeta.
  pose proof (show_N_nonempty days) as Hd0.
  pose proof (show_N_nonempty hours) as Hh0.
  pose proof (show_N_nonempty minutes) as Hm0.
  cbn [List.filter fst snd].
  destruct (0 <? days)%N eqn:Ed; destruct (0 <? hours)%N eqn:Eh;
    destruct (0 <? minutes)%N eqn:Em;
    cbn [take String.concat fmap list_fmap fst snd]; norm_strings;
    try (split; [done | reflexivity]).
  all: split; [done|]; intros Heq; exfalso.
  all: try (apply N.ltb_ge in Eh; replace hours with 0%N in * by lia).
  all: try (apply N.ltb_ge in Em; replace minutes with 0%N in * by lia).
  all: change (Js.show_N 0) with "0" in Heq; norm_strings_in Heq.
  all: try (apply string_app_cancel in Heq).
  all: try discriminate.
  all: injection Heq as Heq.
  all: destruct (Js.show_N minutes) as [|? [|? [|? ?]]]; norm_strings_in Heq; congruence.
Qed.

(** An uptime given by its days, hours, minutes and seconds is cut back
    into them by the quotients and remainders of [formatUptime]. *)
Lemma uptime_decompose (d h m r : N) :
  (h < 24)%N -> (m < 60)%N -> (r < 60)%N ->
  let seconds := (86400 * d + 3600 * h + 60 * m + r)%N in
  (seconds / 86400 = d
   /\ (seconds mod 86400) / 3600 = h
   /\ (seconds mod 3600) / 60 = m)%N.
Proof.
  intros Hh Hm Hr seconds.
  assert (Hd : (seconds / 86400 = d)%N).
  { symmetry. apply (N.div_unique seconds 86400 d (3600 * h + 60 * m + r)); unfold seconds; lia. }
  assert (Hmod : (seconds mod 86400 = 3600 * h + 60 * m + r)%N).
  { symmetry. apply (N.mod_unique seconds 86400 d); unfold seconds; lia. }
  assert (Hmod' : (seconds mod 3600 = 60 * m + r)%N).
  { symmetry. apply (N.mod_unique seconds 3600 (24 * d + h)); unfold seconds; lia. }
  split; [exact Hd|]. split.
  - rewrite Hmod. symmetry. apply (N.div_unique _ 3600 h (60 * m + r)); lia.
  - rewrite Hmod'. symmetry. apply (N.div_unique _ 60 m r); lia.
Qed.

(** Every uptime is given that way, in one way only. *)
Lemma uptime_decomposition_exists (seconds : N) :
  exists d h m r,
    (h < 24 /\ m < 60 /\ r < 60
     /\ seconds = 86400 * d + 3600 * h + 60 * m + r)%N.
Proof.
  exists (seconds / 86400)%N, ((seconds mod 86400) / 3600)%N,
    ((seconds mod 3600) / 60)%N, (seconds mod 60)%N.
  destruct (formatUptime_agrees_iff seconds) as (Hh & Hm & _). cbv zeta in Hh, Hm.
  split; [exact Hh|]. split; [exact Hm|].
  split; [apply N.mod_upper_bound; lia|].
  pose proof (N.div_mod seconds 86400 ltac:(lia)) as E1.
  pose proof (N.div_mod (seconds mod 86400) 3600 ltac:(lia)) as E2.
  pose proof (N.div_mod (seconds mod 3600) 60 ltac:(lia)) as E3.
  assert (E4 : ((seconds mod 86400) mod 3600 = seconds mod 3600)%N).
  { change 86400%N with (3600 * 24)%N. rewrite N.Div0.mod_mul_r.
    rewrite (N.mul_comm 3600 ((seconds / 3600) mod 24)), N.Div0.mod_add.
    apply N.Div0.mod_mod. }
  assert (E5 : ((seconds mod 3600) mod 60 = seconds mod 60)%N).
  { change 3600%N with (60 * 60)%N. rewrite N.Div0.mod_mul_r.
    rewrite (N.mul_comm 60 ((seconds / 60) mod 60)), N.Div0.mod_add.
    apply N.Div0.mod_mod. }
  lia.
Qed.

(** C6, amended. For an uptime of [d] days, [h] hours, [m] minutes and [r]
    seconds, below 2^53 seconds in all: [formatUptime] shows the days with
    the hours when there is at least one day, the hours with the minutes
    when there is none but at least one hour, and the minutes alone
    otherwise ("0m" below one minute); the second unit appears even when it
    is zero, and the seconds never.  The result is the largest two
    non-zero units exactly when the last unit shown is not zero. *)
Theorem formatUptime_units (seconds d h m r : N) :
  (h < 24)%N -> (m < 60)%N -> (r < 60)%N ->
  seconds = (86400 * d + 3600 * h + 60 * m + r)%N ->
  Js.safe_integer seconds ->
  ((0 < d)%N -> formatUptime seconds = Js.show_N d ++ "d " ++ Js.show_N h ++ "h")
  /\ (d = 0%N -> (0 < h)%N ->
      formatUptime seconds = Js.show_N h ++ "h " ++ Js.show_N m ++ "m")
  /\ (d = 0%N -> h = 0%N -> formatUptime seconds = Js.show_N m ++ "m")
  /\ ((if (0 <? d)%N then (0 <? h)%N else (0 <? m)%N) = true
      <-> formatUptime seconds = largest_two_nonzero_units seconds).
Proof.
  intros Hh Hm Hr Hs _.
  destruct (uptime_decompose d h m r Hh Hm Hr) as (Ed & Eh & Em).
  cbv zeta in Ed, Eh, Em. rewrite <- Hs in Ed, Eh, Em.
  destruct (formatUptime_agrees_iff seconds) as (_ & _ & Hiff).
  cbv zeta in Hiff. rewrite Ed, Eh, Em in Hiff.
  split; [|split; [|split; [|exact Hiff]]].
  - intros Hd. unfold formatUptime. cbv zeta. rewrite Ed, Eh.
    by rewrite (proj2 (N.ltb_lt 0 d) Hd).
  - intros Hd Hpos. unfold formatUptime. cbv zeta. rewrite Ed, Eh, Em, Hd.
    change (0 <? 0)%N with false. cbv iota.
    by rewrite (proj2 (N.ltb_lt 0 h) Hpos).
  - intros Hd Hz. unfold formatUptime. cbv zeta. rewrite Ed, Eh, Em, Hd, Hz.
    reflexivity.
Qed.

Lemma formatUptime_units_witness :
  (0 < 24)%N /\ (1 < 60)%N /\ (0 < 60)%N
  /\ 86460%N = (86400 * 1 + 3600 * 0 + 60 * 1 + 0)%N
  /\ Js.safe_integer 86460
  /\ formatUptime 86460 = "1d 0h".
Proof.
  assert (H1 : (0 < 24)%N) by reflexivity.
  assert (H2 : (1 < 60)%N) by reflexivity.
  assert (H3 : (0 < 60)%N) by reflexivity.
  assert (H4 : 86460%N = (86400 * 1 + 3600 * 0 + 60 * 1 + 0)%N) by reflexivity.
  assert (H5 : Js.safe_integer 86460) by reflexivity.
  repeat (split; [assumption|]).
  destruct (formatUptime_units 86460 1 0 1 0 H1 H2 H3 H4 H5) as (Hdays & _).
  rewrite Hdays; reflexivity.
Defined.

(** ** Charts *)

Lemma Math_max_zero_not_negative (x : float) :
  (Js.Math_max 0 x <? 0)%float = false.
Proof.
  unfold Js.Math_max.
  change (is_nan 0) with false. change (get_sign 0) with false.
  cbn [orb].
  destruct (is_nan x); [reflexivity|].
  destruct (x <? 0)%float eqn:Hneg; [reflexivity|].
  destruct (0 <? x)%float; [exact Hneg | reflexivity].
Qed.

Section Charts.
Context `{Js.NumberFormat}.

Lemma updateAllCharts_resource d s :
  resourceChart (updateAllCharts d s) =
    set_dataset_data 0
      [System.cpu_percent (system d); System.memory_percent (system d);
       System.disk_percent (system d); available d] <$> resourceChart s.
Proof.
  unfold updateAllCharts. cbv zeta.
  destruct s as [pc rc ac nc h m doc ts cs rs tm]. cbn.
  destruct pc, rc, ac, nc, h; reflexivity.
Qed.

(** C9. After a redraw the resource chart, which exists and has its
    dataset, holds in that dataset the three percentages followed by
    [Math.max(0, 300 - (cpu + memory + disk))]; this fourth value is never
    below zero; it is 220 for 40, 30, 10 and 0 for 100, 100, 100. *)
Theorem resource_chart_available
    (d : Snapshot) (s : State) (c : Chart) (d0 : Dataset) (rest : list Dataset) :
  resourceChart s = Some c ->
  datasets c = d0 :: rest ->
  let cpu_pct := System.cpu_percent (system d) in
  let mem_pct := System.memory_percent (system d) in
  let disk_pct := System.disk_percent (system d) in
  let avail := Js.Math_max 0 (300 - (cpu_pct + mem_pct + disk_pct))%float in
  resourceChart (updateAllCharts d s)
    = Some {| labels := labels c;
              datasets := {| data := [cpu_pct; mem_pct; disk_pct; avail] |} :: rest |}
  /\ (avail <? 0)%float = false
  /\ available (sample_snapshot 40 30 10) = 220%float
  /\ available (sample_snapshot 100 100 100) = 0%float.
Proof.
  intros Hc Hds cpu_pct mem_pct disk_pct avail. split; [|split; [|split]].
  - rewrite updateAllCharts_resource, Hc.
    unfold set_dataset_data, set_datasets. cbn [fmap option_fmap option_map].
    rewrite Hds. reflexivity.
  - apply Math_max_zero_not_negative.
  - vm_compute. reflexivity.
  - vm_compute. reflexivity.
Qed.

End Charts.

Lemma resource_chart_available_witness :
  resourceChart sample_dashboard
    = Some {| labels := ["CPU Usage"; "Memory Usage"; "Disk Usage"; "Available"];
              datasets := [ {| data := [0; 0; 0; 100]%float |} ] |}
  /\ resourceChart
       (updateAllCharts (H := sample_format) (sample_snapshot 40 30 10) sample_dashboard)
     = Some {| labels := ["CPU Usage"; "Memory Usage"; "Disk Usage"; "Available"];
               datasets := [ {| data := [40; 30; 10; 220]%float |} ] |}.
Proof.
  assert (Hc : resourceChart sample_dashboard
               = Some {| labels := ["CPU Usage"; "Memory Usage"; "Disk Usage"; "Available"];
                         datasets := [ {| data := [0; 0; 0; 100]%float |} ] |})
    by (vm_compute; reflexivity).
  split; [exact Hc|].
  destruct (resource_chart_available (H := sample_format) (sample_snapshot 40 30 10)
              sample_dashboard _ _ _ Hc eq_refl) as (Hchart & _).
  rewrite Hchart. vm_compute. reflexivity.
Defined.

(** ** Clearing *)

Lemma clear_chart_empty (c : option Chart) : chart_empty (clear_chart <$> c).
Proof.
  intros ch Hch. destruct c as [c|]; [|done]. injection Hch as <-.
  split; [reflexivity|]. cbn. apply Forall_fmap, Forall_true. done.
Qed.

(** C2 fails as stated: with the four charts set up, [clearData] leaves the
    resource chart with its four labels and its four values. *)
Lemma clearData_keeps_resource_chart :
  resourceChart (clearData sample_dashboard)
    = Some {| labels := ["CPU Usage"; "Memory Usage"; "Disk Usage"; "Available"];
              datasets := [ {| data := [0; 0; 0; 100]%float |} ] |}
  /\ ~ chart_empty (resourceChart (clearData sample_dashboard)).
Proof.
  assert (Heq : resourceChart (clearData sample_dashboard)
    = Some {| labels := ["CPU Usage"; "Memory Usage"; "Disk Usage"; "Available"];
              datasets := [ {| data := [0; 0; 0; 100]%float |} ] |})
    by (vm_compute; reflexivity).
  split; [exact Heq|].
  intros Hempty. destruct (Hempty _ Heq) as [Hlabels _]. discriminate.
Qed.

(** C2, amended. [clearData] empties the history buffer and, for the three
    charts drawn from it (performance, application performance, network),
    leaves no label and no data point in any dataset; the resource chart is
    not touched. *)
Theorem clearData_clears_history_charts (s : State) :
  length (systemHistory (clearData s)) = 0
  /\ chart_empty (performanceChart (clearData s))
  /\ chart_empty (appPerformanceChart (clearData s))
  /\ chart_empty (networkChart (clearData s))
  /\ resourceChart (clearData s) = resourceChart s
  /\ maxHistoryPoints (clearData s) = maxHistoryPoints s.
Proof.
  unfold clearData. cbv zeta.
  match goal with |- context [showToast ?m ?t ?s0] =>
    destruct (showToast_frame m t s0) as (-> & -> & -> & -> & -> & ->) end.
  split; [reflexivity|].
  split; [apply (clear_chart_empty (performanceChart s))|].
  split; [apply (clear_chart_empty (appPerformanceChart s))|].
  split; [apply (clear_chart_empty (networkChart s))|].
  split; reflexivity.
Qed.

(** ** The failing refresh *)

Section Refresh.
Context `{Js.NumberFormat}.

Lemma resume_failure now resp s :
  resp ∈ refresh_failures ->
  updateEnhancedDashboard_resume now resp s =
    set_document (alter badge_error "status-badge" (document s))
      (console_log "Error updating enhanced dashboard:" s).
Proof.
  unfold refresh_failures. rewrite !elem_of_cons, elem_of_nil.
  intros [->|[->|[]]]; reflexivity.
Qed.

(** C3. When [fetch] or [response.json()] fails in the refresh, the history
    buffer, its bound, the four charts, the toasts and the timers are as
    before the call, and the page is as before but for the status badge,
    which (if the page has one) gets the Connection Error markup and the
    danger class.  This holds from whatever state the page is in when the
    promise settles, and so for the call as a whole. *)
Theorem refresh_failure_flips_only_badge (now : string) (s : State) :
  Forall (fun resp =>
            only_badge_flipped s (updateEnhancedDashboard_resume now resp s)
            /\ only_badge_flipped s (updateEnhancedDashboard now resp s))
         refresh_failures
  /\ (forall e,
        innerHTML (badge_error e)
          = "<i class=" ++ dq ++ "bi bi-exclamation-triangle" ++ dq
            ++ "></i> Connection Error"
        /\ className (badge_error e) = "badge bg-danger fs-6"
        /\ disabled (badge_error e) = disabled e).
Proof.
  split; [|by intros e].
  apply Forall_forall. intros resp Hresp.
  unfold updateEnhancedDashboard. rewrite !resume_failure by done.
  by repeat split.
Qed.

End Refresh.

(** ** Demo actions *)

Lemma showToast_lookup message type s id :
  is_Some (document s !! id) ->
  document (showToast message type s) !! id = document s !! id.
Proof.
  intros [e He]. unfold showToast, createToastContainer.
  destruct (document s !! "toast-container") eqn:Hc; cbn; [done|].
  rewrite lookup_insert_ne; [done|]. intros <-. congruence.
Qed.

Lemma setTimeout_document cb ms s : document (setTimeout cb ms s) = document s.
Proof. reflexivity. Qed.

Lemma console_log_document line s : document (console_log line s) = document s.
Proof. reflexivity. Qed.

Lemma fetch_document url s : document (fetch url s) = document s.
Proof. reflexivity. Qed.

Lemma restore_lookup p s b2 :
  document s !! button p = Some b2 ->
  document (restore p s) !! button p
    = Some (set_disabled false (set_innerHTML (originalText p) b2)).
Proof. intros Hb. unfold restore. cbn. by rewrite lookup_alter_eq, Hb. Qed.

Lemma busy_lookup target label s b :
  document s !! target = Some b ->
  document (busy target label s) !! target
    = Some (set_disabled true (set_innerHTML (spinner label) b)).
Proof. intros Hb. unfold busy. cbn. by rewrite lookup_alter_eq, Hb. Qed.

Lemma restore_after_busy label b :
  disabled b = false ->
  set_disabled false
    (set_innerHTML (innerHTML b) (set_disabled true (set_innerHTML (spinner label) b)))
  = b.
Proof. destruct b as [html cls dis]. cbn. by intros ->. Qed.

(** A handler whose [resume] only shows toasts, arms timers or logs before
    its [finally] block guards its control. *)
Lemma guards_control_intro {O : Type} enter (resume : Pending -> O -> State -> State)
    label target b s (between : State -> State) (before : O -> State -> State) :
  document s !! target = Some b ->
  enter target s
    = Some ({| button := target; originalText := innerHTML b |},
            between (busy target label s)) ->
  (forall s0, is_Some (document s0 !! target) ->
              document (between s0) !! target = document s0 !! target) ->
  (forall out s0, is_Some (document s0 !! target) ->
                  document (before out s0) !! target = document s0 !! target) ->
  (forall p out s0, resume p out s0 = restore p (before out s0)) ->
  guards_control enter resume label target b s.
Proof.
  intros Hb Henter Hbetween Hbefore Hresume.
  assert (Hbusy : document (between (busy target label s)) !! target
                  = Some (set_disabled true (set_innerHTML (spinner label) b))).
  { rewrite Hbetween; [by apply busy_lookup|].
    erewrite busy_lookup by done. by eexists. }
  eexists _, _. split; [exact Henter|]. split; [exact Hbusy|]. split.
  - intros out s2 b2 Hb2. rewrite Hresume.
    apply (restore_lookup {| button := target; originalText := innerHTML b |}).
    cbn. rewrite Hbefore; [done | by eexists].
  - intros out Hen. rewrite Hresume.
    erewrite (restore_lookup {| button := target; originalText := innerHTML b |}).
    + cbn. by rewrite restore_after_busy.
    + cbn. rewrite Hbefore; [exact Hbusy | rewrite Hbusy; by eexists].
Qed.

Lemma fetch_all_lookup {A} (f : A -> string) (l : list A) s id :
  document (foldl (fun acc x => fetch (f x) acc) s l) !! id = document s !! id.
Proof. by destruct (fetch_all_frame f l s) as (_ & _ & -> & _). Qed.

(** C4 fails as stated: [memoryTest] disables nothing.  On a page whose
    button is enabled, the button is as it was once [memoryTest] has run,
    and still when its timer has fired. *)
Lemma memoryTest_leaves_button_enabled :
  document (memoryTest (initial sample_page)) !! "action-button" = Some sample_button
  /\ disabled sample_button = false
  /\ document (memoryTest_done (memoryTest (initial sample_page))) !! "action-button"
     = Some sample_button.
Proof. split; [|split]; vm_compute; reflexivity. Qed.

(** C4, amended. Generate traffic, simulate work and stress test disable
    the control that triggered them on entry and, on every outcome of their
    requests, give it its original label back and enable it; the memory
    test does neither: it leaves the control as it is. *)
Theorem button_actions_restore_control (target : string) (b : Element) (s : State) :
  document s !! target = Some b ->
  (forall count,
      guards_control (generateTraffic_enter count) (generateTraffic_resume count)
        "Generating Traffic..." target b s)
  /\ guards_control simulateWork_enter simulateWork_resume "Working..." target b s
  /\ guards_control stressTest_enter stressTest_resume "Testing..." target b s
  /\ document (memoryTest s) !! target = Some b
  /\ document (memoryTest_done (memoryTest s)) !! target = Some b.
Proof.
  intros Hb. split; [|split; [|split; [|split]]].
  - intros count.
    apply (guards_control_intro _ _ _ _ _ _
             (fun s0 =>
                foldl (fun acc url => fetch url acc)
                  (showToast ("Firing " ++ Js.show_nat count ++ " requests...") "info" s0)
                  (traffic_promises count))
             (fun outcomes s0 =>
                match Js.Promise_all (Js.catch_ignore <$> outcomes) with
                | Js.Fulfilled _ =>
                    setTimeout CbUpdateEnhancedDashboard 500
                      (showToast (Js.show_nat count ++ " requests completed!") "success" s0)
                | Js.Rejected =>
                    console_log "Traffic generation error:"
                      (showToast "Error generating traffic" "error" s0)
                end)); try done.
    + unfold generateTraffic_enter. by rewrite Hb.
    + intros s0 Hs0.
      rewrite (fetch_all_lookup (fun url : string => url)).
      by apply showToast_lookup.
    + intros out s0 Hs0.
      case_match; rewrite ?setTimeout_document, ?console_log_document;
        by apply showToast_lookup.
  - apply (guards_control_intro _ _ _ _ _ _
             (fun s0 => fetch "/api/simulate-work" s0)
             (fun resp s0 =>
                match resp with
                | Js.Fulfilled (Js.Fulfilled _) =>
                    showToast "Work simulation completed!" "success" s0
                | _ => showToast "Error simulating work" "error" s0
                end)); try done.
    + unfold simulateWork_enter. by rewrite Hb.
    + intros out s0 Hs0. repeat case_match; by apply showToast_lookup.
  - apply (guards_control_intro _ _ _ _ _ _
             (fun s0 => foldl (fun acc _ => fetch "/api/simulate-work" acc) s0 (seq 0 5))
             (fun outcomes s0 =>
                match Js.Promise_all outcomes with
                | Js.Fulfilled _ => showToast "CPU stress test completed!" "warning" s0
                | Js.Rejected => showToast "Stress test failed" "error" s0
                end)); try done.
    + unfold stressTest_enter. by rewrite Hb.
    + intros out s0 Hs0. case_match; by apply showToast_lookup.
  - unfold memoryTest. rewrite setTimeout_document.
    rewrite showToast_lookup; [done | by eexists].
  - unfold memoryTest_done, memoryTest.
    assert (Hfirst : document
                       (showToast "Memory usage will increase temporarily" "info" s)
                     !! target = Some b)
      by (rewrite showToast_lookup; [done | by eexists]).
    rewrite showToast_lookup; rewrite setTimeout_document; [done | by eexists].
Qed.

Lemma button_actions_restore_control_witness :
  document (initial sample_page) !! "action-button" = Some sample_button
  /\ guards_control simulateWork_enter simulateWork_resume "Working..."
       "action-button" sample_button (initial sample_page)
  /\ document (memoryTest (initial sample_page)) !! "action-button" = Some sample_button.
Proof.
  assert (Hb : document (initial sample_page) !! "action-button" = Some sample_button)
    by (vm_compute; reflexivity).
  split; [exact Hb|].
  destruct (button_actions_restore_control "action-button" sample_button
              (initial sample_page) Hb) as (_ & Hwork & _ & Hmem & _).
  split; [exact Hwork | exact Hmem].
Defined.

(** ** Traffic generation *)

Lemma traffic_step_requests_at promises i :
  traffic_step promises i = (promises ++ requests_at i)%list.
Proof.
  unfold traffic_step, requests_at, Js.push.
  destruct (i mod 5 =? 0)%nat, (i mod 10 =? 0)%nat; cbn;
    rewrite <- ?app_assoc; reflexivity.
Qed.

Lemma traffic_loop promises l :
  foldl traffic_step promises l = (promises ++ flat_map requests_at l)%list.
Proof.
  revert promises. induction l as [|i l IH]; intros promises; cbn.
  - by rewrite app_nil_r.
  - by rewrite IH, traffic_step_requests_at, <- app_assoc.
Qed.

Lemma count_url_app url l k :
  count_url url (l ++ k)%list = count_url url l + count_url url k.
Proof. unfold count_url. by rewrite List.filter_app, length_app. Qed.

Lemma count_requests l :
  count_url "/api/health" (flat_map requests_at l) = length l
  /\ count_url "/api/metrics" (flat_map requests_at l)
     = length (List.filter (fun i => (i mod 5 =? 0)%nat) l)
  /\ count_url "/api/users" (flat_map requests_at l)
     = length (List.filter (fun i => (i mod 10 =? 0)%nat) l).
Proof.
  induction l as [|i l (IHh & IHm & IHu)]; [done|].
  cbn [flat_map List.filter]. rewrite !count_url_app, IHh, IHm, IHu.
  unfold requests_at.
  destruct (i mod 5 =? 0)%nat, (i mod 10 =? 0)%nat; by vm_compute.
Qed.

Lemma fetch_all_requests (l : list string) s :
  requests (foldl (fun acc url => fetch url acc) s l) = (requests s ++ l)%list.
Proof.
  revert s. induction l as [|url l IH]; intros s; cbn.
  - by rewrite app_nil_r.
  - rewrite IH. cbn. unfold Js.push. by rewrite <- app_assoc.
Qed.

Lemma showToast_requests message type s :
  requests (showToast message type s) = requests s.
Proof.
  unfold showToast, createToastContainer.
  by destruct (document s !! "toast-container").
Qed.

(** Once every promise went through [.catch(() => {})], [Promise.all]
    fulfils. *)
Lemma Promise_all_caught {A} (outcomes : list (Js.settled A)) :
  exists values, Js.Promise_all (Js.catch_ignore <$> outcomes) = Js.Fulfilled values.
Proof.
  induction outcomes as [|o outcomes [values IH]]; [by eexists|].
  cbn [fmap list_fmap]. destruct o; cbn; rewrite IH; by eexists.
Qed.

(** C8. [generateTraffic(count)] sends, for each [i] below [count] in turn,
    one health request, then one metrics request when [i % 5 == 0], then
    one users request when [i % 10 == 0]: [count] health requests in all,
    and with [count = 25] five metrics requests (at 0, 5, 10, 15, 20) and
    three users requests (at 0, 10, 20).  All are awaited through one
    [Promise.all] which, every request having its own [catch], fulfils
    whatever the requests do: the handler always ends on its success path
    (the "completed" toast, the refresh armed for 500 ms later, the
    control restored). *)
Theorem generateTraffic_requests
    (count : nat) (target : string) (b : Element) (s : State) :
  document s !! target = Some b ->
  exists p s1,
    generateTraffic_enter count target s = Some (p, s1)
    /\ requests s1 = (requests s ++ flat_map requests_at (seq 0 count))%list
    /\ count_url "/api/health" (flat_map requests_at (seq 0 count)) = count
    /\ count_url "/api/metrics" (flat_map requests_at (seq 0 count))
       = length (List.filter (fun i => (i mod 5 =? 0)%nat) (seq 0 count))
    /\ count_url "/api/users" (flat_map requests_at (seq 0 count))
       = length (List.filter (fun i => (i mod 10 =? 0)%nat) (seq 0 count))
    /\ (forall outcomes s2,
          generateTraffic_resume count p outcomes s2
          = restore p
              (setTimeout CbUpdateEnhancedDashboard 500
                 (showToast (Js.show_nat count ++ " requests completed!") "success" s2)))
    /\ List.filter (fun i => (i mod 5 =? 0)%nat) (seq 0 25) = [0; 5; 10; 15; 20]
    /\ List.filter (fun i => (i mod 10 =? 0)%nat) (seq 0 25) = [0; 10; 20]
    /\ count_url "/api/health" (traffic_promises 25) = 25
    /\ count_url "/api/metrics" (traffic_promises 25) = 5
    /\ count_url "/api/users" (traffic_promises 25) = 3.
Proof.
  intros Hb. unfold generateTraffic_enter. rewrite Hb. cbn [mbind option_bind].
  eexists _, _. split; [reflexivity|].
  destruct (count_requests (seq 0 count)) as (Hh & Hm & Hu).
  rewrite length_seq in Hh.
  split; [|split; [exact Hh | split; [exact Hm | split; [exact Hu | split]]]].
  - rewrite fetch_all_requests, showToast_requests. cbn [busy set_document requests].
    unfold traffic_promises. by rewrite traffic_loop.
  - intros outcomes s2. unfold generateTraffic_resume.
    by destruct (Promise_all_caught outcomes) as [values ->].
  - repeat split; vm_compute; reflexivity.
Qed.

Lemma generateTraffic_requests_witness :
  document (initial sample_page) !! "action-button" = Some sample_button
  /\ exists p s1,
       generateTraffic_enter 25 "action-button" (initial sample_page) = Some (p, s1)
       /\ requests s1 = flat_map requests_at (seq 0 25)
       /\ length (requests s1) = 33.
Proof.
  assert (Hb : document (initial sample_page) !! "action-button" = Some sample_button)
    by (vm_compute; reflexivity).
  split; [exact Hb|].
  destruct (generateTraffic_requests 25 "action-button" sample_button
              (initial sample_page) Hb) as (p & s1 & Henter & Hreq & _).
  exists p, s1. split; [exact Henter|]. split; [exact Hreq|].
  rewrite Hreq. reflexivity.
Defined.

(** * Further properties of the script *)

(** ** Notifications *)

Lemma showToast_toasts message type s :
  toasts (showToast message type s) = (toasts s ++ [banner message type])%list.
Proof.
  unfold showToast, createToastContainer, banner, Js.push.
  by destruct (document s !! "toast-container").
Qed.





(** ** History points *)

(** X2. The application CPU value of a history point is never NaN: it is
    either 0 or the [app.cpu_percent] the snapshot carries. *)
Theorem historyPoint_app_cpu_is_a_number (now : string) (d : Snapshot) :
  is_nan (app_cpu (historyPoint now d)) = false
  /\ (app_cpu (historyPoint now d) = 0%float
      \/ App.cpu_percent (app d) = Some (app_cpu (historyPoint now d))).
Proof.
  unfold historyPoint, Js.or_zero. cbn [app_cpu].
  destruct (App.cpu_percent (app d)) as [v|]; [|split; [reflexivity | by left]].
  destruct (is_nan v) eqn:Hnan; cbn [orb]; [split; [reflexivity | by left]|].
  destruct (is_zero v); [split; [reflexivity | by left]|].
  split; [exact Hnan | by right].
Qed.

(** X3. On a buffer within a positive bound, [storeSystemHistory] puts the
    new point last and keeps the earlier points in their order: all of
    them below the bound, all but the oldest one at the bound.  The buffer
    stays within the bound. *)
Theorem storeSystemHistory_appends_newest (now : string) (d : Snapshot) (s : State) :
  history_bounded s ->
  0 < maxHistoryPoints s ->
  let old := systemHistory s in
  let s' := storeSystemHistory now d s in
  last (systemHistory s') = Some (historyPoint now d)
  /\ (length old < maxHistoryPoints s ->
      systemHistory s' = (old ++ [historyPoint now d])%list)
  /\ (length old = maxHistoryPoints s ->
      systemHistory s' = (drop 1 old ++ [historyPoint now d])%list)
  /\ history_bounded s'
  /\ maxHistoryPoints s' = maxHistoryPoints s.
Proof.
  intros Hb Hpos old s'. unfold history_bounded in Hb. fold old in Hb.
  assert (Hhist : systemHistory s' =
                  (drop (length old + 1 - maxHistoryPoints s) old
                   ++ [historyPoint now d])%list).
  { unfold s'. rewrite storeSystemHistory_history. cbv zeta. fold old.
    rewrite length_app. cbn [length].
    destruct (Nat.ltb_spec (maxHistoryPoints s) (length old + 1)) as [Hlt|Hge].
    - replace (length old + 1 - maxHistoryPoints s) with 1 by lia.
      destruct old as [|x old']; [cbn in *; lia | reflexivity].
    - replace (length old + 1 - maxHistoryPoints s) with 0 by lia.
      by rewrite drop_0. }
  split; [by rewrite Hhist, last_snoc|].
  split; [intros Hlt; rewrite Hhist;
          replace (length old + 1 - maxHistoryPoints s) with 0 by lia;
          by rewrite drop_0|].
  split; [intros Heq; rewrite Hhist;
          by replace (length old + 1 - maxHistoryPoints s) with 1 by lia|].
  split; [by apply storeSystemHistory_bounded | apply storeSystemHistory_bound].
Qed.

Lemma storeSystemHistory_appends_newest_witness :
  history_bounded sample_state
  /\ 0 < maxHistoryPoints sample_state
  /\ length (systemHistory
               (storeSystemHistory "10:00:15" (sample_snapshot 1 2 3) sample_state)) = 4
  /\ last (systemHistory
             (storeSystemHistory "10:00:15" (sample_snapshot 1 2 3) sample_state))
     = Some (historyPoint "10:00:15" (sample_snapshot 1 2 3)).
Proof.
  assert (Hb : history_bounded sample_state)
    by (unfold history_bounded; vm_compute; lia).
  assert (Hpos : 0 < maxHistoryPoints sample_state) by (vm_compute; lia).
  split; [exact Hb|]. split; [exact Hpos|].
  destruct (storeSystemHistory_appends_newest "10:00:15" (sample_snapshot 1 2 3)
              sample_state Hb Hpos) as (Hlast & Hbelow & _).
  split; [|exact Hlast].
  rewrite Hbelow; [reflexivity | vm_compute; lia].
Defined.

(** ** Redraw *)

Lemma redraw_performance c h :
  length (datasets c) = 4 ->
  set_dataset_data 3 (app_memory <$> h)
    (set_dataset_data 2 (disk <$> h)
       (set_dataset_data 1 (memory <$> h)
          (set_dataset_data 0 (cpu <$> h) (set_labels (timestamp <$> h) c))))
  = performance_of h.
Proof.
  destruct c as [l ds]. cbn [datasets]. intros Hlen.
  destruct ds as [|d0 [|d1 [|d2 [|d3 [|d4 ds]]]]]; try discriminate Hlen.
  reflexivity.
Qed.

Lemma redraw_appPerformance c h :
  length (datasets c) = 2 ->
  set_dataset_data 1 (connections <$> h)
    (set_dataset_data 0 (app_cpu <$> h) (set_labels (timestamp <$> h) c))
  = appPerformance_of h.
Proof.
  destruct c as [l ds]. cbn [datasets]. intros Hlen.
  destruct ds as [|d0 [|d1 [|d2 ds]]]; try discriminate Hlen.
  reflexivity.
Qed.

Lemma redraw_network c h :
  length (datasets c) = 2 ->
  set_dataset_data 1 (network_recv <$> h)
    (set_dataset_data 0 (network_sent <$> h) (set_labels (timestamp <$> h) c))
  = network_of h.
Proof.
  destruct c as [l ds]. cbn [datasets]. intros Hlen.
  destruct ds as [|d0 [|d1 [|d2 ds]]]; try discriminate Hlen.
  reflexivity.
Qed.

Lemma chart_aligned_redrawn_performance h c :
  chart_aligned c -> chart_aligned (redrawn performance_of h c).
Proof.
  intros Hc. destruct h as [|x h]; [exact Hc|].
  intros ch Hch. destruct c as [c|]; [|done]. injection Hch as <-.
  cbn [performance_of datasets labels]. repeat constructor; cbn; by rewrite !length_fmap.
Qed.

Lemma chart_aligned_redrawn_appPerformance h c :
  chart_aligned c -> chart_aligned (redrawn appPerformance_of h c).
Proof.
  intros Hc. destruct h as [|x h]; [exact Hc|].
  intros ch Hch. destruct c as [c|]; [|done]. injection Hch as <-.
  cbn [appPerformance_of datasets labels]. repeat constructor; cbn; by rewrite !length_fmap.
Qed.

Lemma chart_aligned_redrawn_network h c :
  chart_aligned c -> chart_aligned (redrawn network_of h c).
Proof.
  intros Hc. destruct h as [|x h]; [exact Hc|].
  intros ch Hch. destruct c as [c|]; [|done]. injection Hch as <-.
  cbn [network_of datasets labels]. repeat constructor; cbn; by rewrite !length_fmap.
Qed.

Lemma chart_aligned_clear c : chart_aligned (clear_chart <$> c).
Proof.
  intros ch Hch. destruct c as [c|]; [|done]. injection Hch as <-.
  cbn. apply Forall_fmap, Forall_true. done.
Qed.

Lemma resource_wellformed_set c v0 v1 v2 v3 :
  resource_wellformed c ->
  resource_wellformed (set_dataset_data 0 [v0; v1; v2; v3] <$> c).
Proof.
  intros Hc ch Hch. destruct c as [c|]; [|done]. injection Hch as <-.
  destruct (Hc c eq_refl) as [Hl Hd]. split; [exact Hl|].
  unfold set_dataset_data. cbn [datasets set_datasets].
  destruct (datasets c) as [|d0 ds]; [constructor|].
  cbn. inversion Hd; subst. by constructor.
Qed.

Section Redraw.
Context `{Js.NumberFormat}.

Lemma updateAllCharts_history_charts d s :
  chart_shapes s ->
  let h := systemHistory s in
  performanceChart (updateAllCharts d s) = redrawn performance_of h (performanceChart s)
  /\ appPerformanceChart (updateAllCharts d s)
     = redrawn appPerformance_of h (appPerformanceChart s)
  /\ networkChart (updateAllCharts d s) = redrawn network_of h (networkChart s).
Proof.
  unfold chart_shapes, has_datasets, updateAllCharts. cbv zeta.
  destruct s as [pc rc ac nc h m doc ts cs rs tm]. cbn.
  intros (Hp & Hr & Ha & Hn).
  destruct pc as [pc|], rc as [rc|], ac as [ac|], nc as [nc|], h as [|x h]; cbn;
    (split; [|split]); try done; f_equal;
    first [ apply (redraw_performance _ (x :: h))
          | apply (redraw_appPerformance _ (x :: h))
          | apply (redraw_network _ (x :: h)) ];
    eauto.
Qed.

End Redraw.

(** ** Metric cards and system information *)

Lemma write_text_lookup_ne id text s id' :
  id ≠ id' -> document (write_text id text s) !! id' = document s !! id'.
Proof. intros Hne. unfold write_text. cbn. by rewrite lookup_alter_ne. Qed.

Lemma write_text_lookup_eq id text s :
  document (write_text id text s) !! id = set_innerHTML text <$> document s !! id.
Proof. unfold write_text. cbn. by rewrite lookup_alter_eq. Qed.

Lemma same_structure_refl m : same_structure m m.
Proof. done. Qed.

Lemma same_structure_alter m m' id (f : Element -> Element) :
  (forall e, className (f e) = className e /\ disabled (f e) = disabled e) ->
  same_structure m m' -> same_structure m (alter f id m').
Proof.
  intros Hf Hm id'. destruct (Hm id') as [Hc Hd].
  destruct (decide (id = id')) as [->|Hne].
  - rewrite lookup_alter_eq, <- Hc, <- Hd.
    destruct (m' !! id') as [e|]; cbn; [|done].
    destruct (Hf e) as [-> ->]. done.
  - by rewrite lookup_alter_ne.
Qed.

Lemma same_structure_write_text m id text s :
  same_structure m (document s) ->
  same_structure m (document (write_text id text s)).
Proof. intros Hm. unfold write_text. cbn. by apply same_structure_alter. Qed.

(** From [id ∉ [a; b; ...]] to the disequalities, and the lookups through
    a chain of [write_text] at other slots. *)
Ltac skip_writes Hout :=
  rewrite ?not_elem_of_cons in Hout;
  repeat (rewrite write_text_lookup_ne by (intros <-; tauto));
  try reflexivity.

Lemma updateSystemInformation_outside d s id :
  id ∉ system_information_slots ->
  document (updateSystemInformation d s) !! id = document s !! id.
Proof.
  intros Hout. unfold system_information_slots in Hout.
  unfold updateSystemInformation. cbv zeta. skip_writes Hout.
Qed.

(** X8. [updateSystemInformation] puts in each of its five slots that the
    page has the text of the snapshot (the host name, the platform, the
    version after a "v", the two uptimes as [formatUptime] prints them); a
    write to one slot does not disturb another. *)
Theorem updateSystemInformation_fills_slots
    (d : Snapshot) (s : State) (id text : string) :
  (id, text) ∈ system_information_text d ->
  document (updateSystemInformation d s) !! id
    = set_innerHTML text <$> document s !! id.
Proof.
  unfold system_information_text. rewrite !elem_of_cons, elem_of_nil.
  unfold updateSystemInformation. cbv zeta.
  intros [Heq|[Heq|[Heq|[Heq|[Heq|[]]]]]]; injection Heq as -> ->;
    repeat (rewrite write_text_lookup_ne by discriminate);
    rewrite write_text_lookup_eq;
    repeat (rewrite write_text_lookup_ne by discriminate);
    reflexivity.
Qed.

Lemma updateSystemInformation_fills_slots_witness :
  ("system-uptime", "1d 1h") ∈ system_information_text (sample_snapshot 40 30 10)
  /\ document
       (updateSystemInformation (sample_snapshot 40 30 10)
          (initial {[ "system-uptime" := sample_button ]})) !! "system-uptime"
     = Some (set_innerHTML "1d 1h" sample_button).
Proof.
  assert (Hin : ("system-uptime", "1d 1h")
                ∈ system_information_text (sample_snapshot 40 30 10)).
  { unfold system_information_text.
    do 3 apply list_elem_of_further. apply list_elem_of_here. }
  split; [exact Hin|].
  rewrite (updateSystemInformation_fills_slots _ _ _ _ Hin).
  vm_compute. reflexivity.
Defined.

Section Cards.
Context `{Js.NumberFormat}.

Lemma updateEnhancedMetricCards_outside d s id :
  id ∉ metric_card_slots ->
  document (updateEnhancedMetricCards d s) !! id = document s !! id.
Proof.
  intros Hout. unfold metric_card_slots in Hout.
  unfold updateEnhancedMetricCards. cbv zeta.
  repeat case_match; skip_writes Hout.
Qed.

Lemma updateEnhancedMetricCards_structure d s :
  same_structure (document s) (document (updateEnhancedMetricCards d s)).
Proof.
  unfold updateEnhancedMetricCards. cbv zeta.
  repeat case_match;
    repeat apply same_structure_write_text; apply same_structure_refl.
Qed.

Lemma updateSystemInformation_structure d s :
  same_structure (document s) (document (updateSystemInformation d s)).
Proof.
  unfold updateSystemInformation. cbv zeta.
  repeat apply same_structure_write_text. apply same_structure_refl.
Qed.

(** X6. The two card updaters only rewrite contents: the page has the same
    elements afterwards, each with the class and the [disabled] flag it
    had (a slot the page lacks is skipped, none is created), and an
    element that is not one of their slots keeps its content.  The buffer,
    its bound and the charts are not touched. *)
Theorem card_updaters_keep_page_structure (d : Snapshot) (s : State) :
  same_structure (document s) (document (updateEnhancedMetricCards d s))
  /\ same_structure (document s) (document (updateSystemInformation d s))
  /\ (forall id, id ∉ metric_card_slots ->
        document (updateEnhancedMetricCards d s) !! id = document s !! id)
  /\ (forall id, id ∉ system_information_slots ->
        document (updateSystemInformation d s) !! id = document s !! id)
  /\ unchanged s (updateEnhancedMetricCards d s)
  /\ unchanged s (updateSystemInformation d s).
Proof.
  split; [apply updateEnhancedMetricCards_structure|].
  split; [apply updateSystemInformation_structure|].
  split; [intros id; apply updateEnhancedMetricCards_outside|].
  split; [intros id; apply updateSystemInformation_outside|].
  split; [apply unchanged_updateEnhancedMetricCards, unchanged_refl
         | apply unchanged_updateSystemInformation, unchanged_refl].
Qed.

(** X7. The network card is written as a pair: when the page lacks the
    usage slot or the details slot, neither is written, even if the other
    one is there. *)
Theorem network_card_needs_both_slots (d : Snapshot) (s : State) :
  document s !! "network-usage" = None \/ document s !! "network-details" = None ->
  document (updateEnhancedMetricCards d s) !! "network-usage"
    = document s !! "network-usage"
  /\ document (updateEnhancedMetricCards d s) !! "network-details"
     = document s !! "network-details".
Proof.
  intros Hmissing. unfold updateEnhancedMetricCards. cbv zeta.
  repeat (rewrite write_text_lookup_ne by discriminate).
  case_match eqn:Hu; [case_match eqn:Hdt|].
  - exfalso.
    repeat (rewrite write_text_lookup_ne in Hu by discriminate).
    repeat (rewrite write_text_lookup_ne in Hdt by discriminate).
    destruct Hmissing; congruence.
  - by repeat (rewrite write_text_lookup_ne by discriminate).
  - by repeat (rewrite write_text_lookup_ne by discriminate).
Qed.

End Cards.

Lemma network_card_needs_both_slots_witness :
  (document (initial sample_half_network) !! "network-usage" = None
   \/ document (initial sample_half_network) !! "network-details" = None)
  /\ document
       (updateEnhancedMetricCards (H := sample_format) (sample_snapshot 40 30 10)
          (initial sample_half_network)) !! "network-usage"
     = Some {| innerHTML := "-"; className := "h3"; disabled := false |}.
Proof.
  assert (Hmissing :
            document (initial sample_half_network) !! "network-usage" = None
            \/ document (initial sample_half_network) !! "network-details" = None)
    by (right; vm_compute; reflexivity).
  split; [exact Hmissing|].
  destruct (network_card_needs_both_slots (H := sample_format)
              (sample_snapshot 40 30 10) (initial sample_half_network) Hmissing)
    as [-> _].
  vm_compute. reflexivity.
Defined.

(** ** The successful refresh *)

Lemma storeSystemHistory_last now d s :
  0 < maxHistoryPoints s ->
  last (systemHistory (storeSystemHistory now d s)) = Some (historyPoint now d).
Proof.
  intros Hpos. rewrite storeSystemHistory_history. cbv zeta.
  case_match eqn:Hcmp; [|by rewrite last_snoc].
  destruct (systemHistory s) as [|x old].
  - apply Nat.ltb_lt in Hcmp. cbn in Hcmp. lia.
  - change (last (old ++ [historyPoint now d])%list = Some (historyPoint now d)).
    apply last_snoc.
Qed.

Lemma storeSystemHistory_frame now d s :
  document (storeSystemHistory now d s) = document s
  /\ toasts (storeSystemHistory now d s) = toasts s
  /\ requests (storeSystemHistory now d s) = requests s.
Proof. unfold storeSystemHistory. by case_match. Qed.

Lemma updateSystemInformation_frame d s :
  toasts (updateSystemInformation d s) = toasts s
  /\ requests (updateSystemInformation d s) = requests s.
Proof. done. Qed.

Lemma console_log_frame line s :
  toasts (console_log line s) = toasts s
  /\ requests (console_log line s) = requests s.
Proof. done. Qed.

Lemma storeSystemHistory_same_input now d s s2 :
  unchanged s s2 ->
  systemHistory (storeSystemHistory now d s2) = systemHistory (storeSystemHistory now d s).
Proof.
  intros [[Hh Hm] _]. by rewrite !storeSystemHistory_history, Hh, Hm.
Qed.

Section RefreshSuccess.
Context `{Js.NumberFormat}.

Lemma updateEnhancedMetricCards_frame d s :
  toasts (updateEnhancedMetricCards d s) = toasts s
  /\ requests (updateEnhancedMetricCards d s) = requests s.
Proof. unfold updateEnhancedMetricCards. cbv zeta. by repeat case_match. Qed.

Lemma updateAllCharts_frame d s :
  toasts (updateAllCharts d s) = toasts s
  /\ requests (updateAllCharts d s) = requests s.
Proof. unfold updateAllCharts. cbv zeta. by repeat case_match. Qed.

Lemma updateAllCharts_outside d s id :
  id ∉ ["resource-cpu"; "resource-memory"; "resource-disk"] ->
  document (updateAllCharts d s) !! id = document s !! id.
Proof.
  intros Hout. unfold updateAllCharts. cbv zeta.
  repeat case_match; cbn [document set_networkChart set_appPerformanceChart
                            set_performanceChart set_resourceChart];
    skip_writes Hout.
Qed.

Lemma cards_written_unchanged d s : unchanged s (cards_written d s).
Proof.
  apply unchanged_updateSystemInformation, unchanged_updateEnhancedMetricCards.
  auto with frame.
Qed.

Lemma resume_success_badge now d s :
  updateEnhancedDashboard_resume now (Js.Fulfilled (Js.Fulfilled d)) s
  = set_document
      (alter badge_healthy "status-badge" (document (redrawn_state now d s)))
      (redrawn_state now d s).
Proof.
  unfold updateEnhancedDashboard_resume, redrawn_state, cards_written.
  cbv zeta. reflexivity.
Qed.

Lemma set_document_fields m t :
  systemHistory (set_document m t) = systemHistory t
  /\ maxHistoryPoints (set_document m t) = maxHistoryPoints t
  /\ performanceChart (set_document m t) = performanceChart t
  /\ resourceChart (set_document m t) = resourceChart t
  /\ appPerformanceChart (set_document m t) = appPerformanceChart t
  /\ networkChart (set_document m t) = networkChart t
  /\ toasts (set_document m t) = toasts t
  /\ requests (set_document m t) = requests t
  /\ document (set_document m t) = m.
Proof. by repeat split. Qed.

Lemma redrawn_state_facts now d s :
  chart_shapes s ->
  let t := redrawn_state now d s in
  systemHistory t = systemHistory (storeSystemHistory now d s)
  /\ maxHistoryPoints t = maxHistoryPoints s
  /\ performanceChart t = redrawn performance_of (systemHistory t) (performanceChart s)
  /\ appPerformanceChart t
     = redrawn appPerformance_of (systemHistory t) (appPerformanceChart s)
  /\ networkChart t = redrawn network_of (systemHistory t) (networkChart s)
  /\ resourceChart t
     = set_dataset_data 0
         [System.cpu_percent (system d); System.memory_percent (system d);
          System.disk_percent (system d); available d] <$> resourceChart s.
Proof.
  intros Hshapes t. unfold t, redrawn_state.
  destruct (cards_written_unchanged d s) as [[Hh2 Hm2] (Hp2 & Hr2 & Ha2 & Hn2)].
  destruct (storeSystemHistory_charts now d (cards_written d s))
    as (Hp3 & Hr3 & Ha3 & Hn3).
  assert (Hshapes3 : chart_shapes (storeSystemHistory now d (cards_written d s))).
  { unfold chart_shapes. rewrite Hp3, Hr3, Ha3, Hn3, Hp2, Hr2, Ha2, Hn2. exact Hshapes. }
  destruct (updateAllCharts_buffer d (storeSystemHistory now d (cards_written d s)))
    as [Hh4 Hm4].
  destruct (updateAllCharts_history_charts d _ Hshapes3) as (Hp4 & Ha4 & Hn4).
  rewrite Hh4, Hm4, Hp4, Ha4, Hn4, updateAllCharts_resource.
  rewrite Hp3, Ha3, Hn3, Hr3, Hp2, Ha2, Hn2, Hr2.
  rewrite storeSystemHistory_bound, Hm2.
  split; [apply storeSystemHistory_same_input; by repeat split|].
  by repeat split.
Qed.

Lemma redrawn_state_page now d s :
  document (redrawn_state now d s) !! "status-badge" = document s !! "status-badge"
  /\ toasts (redrawn_state now d s) = toasts s
  /\ requests (redrawn_state now d s) = requests s.
Proof.
  unfold redrawn_state.
  destruct (updateAllCharts_frame d (storeSystemHistory now d (cards_written d s)))
    as [-> ->].
  rewrite updateAllCharts_outside
    by (rewrite !not_elem_of_cons; repeat split; (discriminate || apply not_elem_of_nil)).
  destruct (storeSystemHistory_frame now d (cards_written d s)) as (-> & -> & ->).
  unfold cards_written.
  rewrite updateSystemInformation_outside
    by (unfold system_information_slots; rewrite !not_elem_of_cons;
        repeat split; (discriminate || apply not_elem_of_nil)).
  rewrite updateEnhancedMetricCards_outside
    by (unfold metric_card_slots; rewrite !not_elem_of_cons;
        repeat split; (discriminate || apply not_elem_of_nil)).
  split; [reflexivity|].
  destruct (updateSystemInformation_frame d
              (updateEnhancedMetricCards d (console_log "Dashboard data received:" s)))
    as [-> ->].
  destruct (updateEnhancedMetricCards_frame d
              (console_log "Dashboard data received:" s)) as [-> ->].
  apply console_log_frame.
Qed.

Lemma resume_success_facts now d s :
  chart_shapes s ->
  let s' := updateEnhancedDashboard_resume now (Js.Fulfilled (Js.Fulfilled d)) s in
  let h' := systemHistory s' in
  h' = systemHistory (storeSystemHistory now d s)
  /\ maxHistoryPoints s' = maxHistoryPoints s
  /\ performanceChart s' = redrawn performance_of h' (performanceChart s)
  /\ appPerformanceChart s' = redrawn appPerformance_of h' (appPerformanceChart s)
  /\ networkChart s' = redrawn network_of h' (networkChart s)
  /\ resourceChart s'
     = set_dataset_data 0
         [System.cpu_percent (system d); System.memory_percent (system d);
          System.disk_percent (system d); available d] <$> resourceChart s.
Proof.
  intros Hshapes s' h'. unfold h', s'. rewrite resume_success_badge.
  pose proof (redrawn_state_facts now d s Hshapes) as Hfacts. cbv zeta in Hfacts.
  revert Hfacts. generalize (redrawn_state now d s). intros t Hfacts.
  destruct (set_document_fields (alter badge_healthy "status-badge" (document t)) t)
    as (-> & -> & -> & -> & -> & -> & _).
  exact Hfacts.
Qed.

(** X5. A refresh that receives its snapshot, on charts with the datasets
    of their set-up and under a positive bound: the buffer is what
    [storeSystemHistory] makes of it, with the new point last; each history
    chart that exists is replaced as a whole by the chart of the new
    buffer (its labels the timestamps, its series the fields of the points,
    in order); the status badge, if the page has one, shows the healthy
    rendering; no notification is shown and no request is sent. *)
Theorem refresh_success_redraws_from_history
    (now : string) (d : Snapshot) (s : State) :
  chart_shapes s ->
  0 < maxHistoryPoints s ->
  let s' := updateEnhancedDashboard_resume now (Js.Fulfilled (Js.Fulfilled d)) s in
  let h' := systemHistory s' in
  h' = systemHistory (storeSystemHistory now d s)
  /\ last h' = Some (historyPoint now d)
  /\ performanceChart s' = (fun _ => performance_of h') <$> performanceChart s
  /\ appPerformanceChart s' = (fun _ => appPerformance_of h') <$> appPerformanceChart s
  /\ networkChart s' = (fun _ => network_of h') <$> networkChart s
  /\ document s' !! "status-badge" = badge_healthy <$> document s !! "status-badge"
  /\ toasts s' = toasts s
  /\ requests s' = requests s.
Proof.
  intros Hshapes Hpos s' h'.
  destruct (resume_success_facts now d s Hshapes) as (Hh & _ & Hp & Ha & Hn & _).
  fold s' in Hh, Hp, Ha, Hn. fold h' in Hh, Hp, Ha, Hn.
  assert (Hlast : last h' = Some (historyPoint now d))
    by (rewrite Hh; by apply storeSystemHistory_last).
  assert (Hcons : exists x l, h' = x :: l).
  { destruct h' as [|x l]; [discriminate Hlast | by eexists _, _]. }
  destruct Hcons as (x & l & Hxl).
  split; [exact Hh|]. split; [exact Hlast|].
  split; [rewrite Hp, Hxl; reflexivity|].
  split; [rewrite Ha, Hxl; reflexivity|].
  split; [rewrite Hn, Hxl; reflexivity|].
  unfold s'. rewrite resume_success_badge.
  destruct (redrawn_state_page now d s) as (Hbadge & Htoasts & Hreqs).
  revert Hbadge Htoasts Hreqs. generalize (redrawn_state now d s).
  intros t Hbadge Htoasts Hreqs.
  destruct (set_document_fields (alter badge_healthy "status-badge" (document t)) t)
    as (_ & _ & _ & _ & _ & _ & -> & -> & ->).
  rewrite lookup_alter_eq, Hbadge. by repeat split.
Qed.

End RefreshSuccess.

Lemma initial_shapes page : chart_shapes (initial page).
Proof. repeat split; intros ch Hch; discriminate. Qed.

Lemma refresh_success_redraws_from_history_witness :
  chart_shapes sample_dashboard
  /\ 0 < maxHistoryPoints sample_dashboard
  /\ performanceChart
       (updateEnhancedDashboard_resume (H := sample_format) "10:00:00"
          (Js.Fulfilled (Js.Fulfilled (sample_snapshot 40 30 10))) sample_dashboard)
     = Some (performance_of [historyPoint "10:00:00" (sample_snapshot 40 30 10)]).
Proof.
  assert (Hshapes : chart_shapes sample_dashboard)
    by (apply setups_shapes, initial_shapes).
  assert (Hpos : 0 < maxHistoryPoints sample_dashboard) by (vm_compute; lia).
  split; [exact Hshapes|]. split; [exact Hpos|].
  destruct (refresh_success_redraws_from_history (H := sample_format) "10:00:00"
              (sample_snapshot 40 30 10) sample_dashboard Hshapes Hpos)
    as (Hh & _ & Hp & _).
  rewrite Hp, Hh. vm_compute. reflexivity.
Defined.

(** ** What every reachable state keeps *)

Lemma dashboard_invariant_unchanged s s' :
  unchanged s s' -> dashboard_invariant s -> dashboard_invariant s'.
Proof.
  unfold dashboard_invariant, history_bounded, chart_shapes.
  intros [[-> ->] (-> & -> & -> & ->)]. done.
Qed.

Lemma selectable_bounds_positive n : n ∈ selectable_bounds -> 0 < n.
Proof.
  unfold selectable_bounds. rewrite !elem_of_cons, elem_of_nil.
  intros [->|[->|[->|[]]]]; lia.
Qed.

Lemma select_bound_selectable tr s :
  maxHistoryPoints s ∈ selectable_bounds ->
  maxHistoryPoints (select_bound tr s) ∈ selectable_bounds.
Proof.
  unfold select_bound, selectable_bounds.
  repeat case_match; cbn; rewrite ?elem_of_cons; auto.
Qed.

Lemma chart_aligned_fresh n :
  chart_aligned (Some {| labels := []; datasets := replicate n {| data := [] |} |}).
Proof.
  intros ch [= <-]. cbn. apply Forall_replicate. done.
Qed.

Lemma resource_wellformed_fresh :
  resource_wellformed
    (Some {| labels := ["CPU Usage"; "Memory Usage"; "Disk Usage"; "Available"];
             datasets := [ {| data := [0; 0; 0; 100]%float |} ] |}).
Proof. intros ch [= <-]. split; [done | by repeat constructor]. Qed.

Lemma initialize_invariant s :
  dashboard_invariant s -> dashboard_invariant (initializeEnhancedDashboard s).
Proof.
  intros (Hb & Hm & Hs & Hp & Ha & Hn & Hr).
  assert (Hbuf := setups_buffer s). destruct Hbuf as [Hh' Hm'].
  split; [unfold history_bounded; by rewrite Hh', Hm'|].
  split; [by rewrite Hm'|].
  split; [by apply setups_shapes|].
  unfold initializeEnhancedDashboard, setupEnhancedPerformanceChart,
    setupEnhancedResourceChart, setupAppPerformanceChart, setupNetworkChart.
  cbv zeta.
  pose proof (chart_aligned_fresh 4) as F4.
  pose proof (chart_aligned_fresh 2) as F2.
  pose proof resource_wellformed_fresh as FR.
  repeat case_match; cbn; (split; [|split; [|split]]);
    first [assumption | exact F4 | exact F2 | exact FR].
Qed.

Lemma clearData_fields s :
  maxHistoryPoints (clearData s) = maxHistoryPoints s
  /\ performanceChart (clearData s) = clear_chart <$> performanceChart s
  /\ resourceChart (clearData s) = resourceChart s
  /\ appPerformanceChart (clearData s) = clear_chart <$> appPerformanceChart s
  /\ networkChart (clearData s) = clear_chart <$> networkChart s.
Proof.
  unfold clearData. cbv zeta.
  match goal with |- context [showToast ?m ?t ?s0] =>
    destruct (showToast_frame m t s0) as (_ & -> & -> & -> & -> & ->) end.
  by repeat split.
Qed.

Lemma clearData_invariant s :
  dashboard_invariant s -> dashboard_invariant (clearData s).
Proof.
  intros (Hb & Hm & Hs & Hp & Ha & Hn & Hr).
  destruct (clearData_fields s) as (Hm' & Hp' & Hr' & Ha' & Hn').
  split; [apply clearData_bounded|].
  split; [by rewrite Hm'|].
  split; [by apply clearData_shapes|].
  rewrite Hp', Hr', Ha', Hn'.
  split; [apply chart_aligned_clear|].
  split; [apply chart_aligned_clear|].
  split; [apply chart_aligned_clear | exact Hr].
Qed.

Lemma updateChartTimeRange_charts tr s :
  same_charts s (updateChartTimeRange tr s).
Proof.
  unfold same_charts, updateChartTimeRange. cbv zeta.
  match goal with |- context [showToast ?m ?t ?s0] =>
    destruct (showToast_frame m t s0) as (_ & _ & -> & -> & -> & ->) end.
  unfold select_bound. by repeat case_match.
Qed.

Lemma updateChartTimeRange_invariant tr s :
  dashboard_invariant s -> dashboard_invariant (updateChartTimeRange tr s).
Proof.
  intros (Hb & Hm & Hs & Hp & Ha & Hn & Hr).
  destruct (updateChartTimeRange_charts tr s) as (Hp' & Hr' & Ha' & Hn').
  split; [by apply updateChartTimeRange_bounded|].
  split; [rewrite updateChartTimeRange_bound; by apply select_bound_selectable|].
  split; [by apply updateChartTimeRange_shapes|].
  by rewrite Hp', Hr', Ha', Hn'.
Qed.

Section ReachableInvariant.
Context `{Js.NumberFormat}.

Lemma resume_invariant now resp s :
  dashboard_invariant s ->
  dashboard_invariant (updateEnhancedDashboard_resume now resp s).
Proof.
  intros Hinv. destruct resp as [[d|]|]; try exact Hinv.
  destruct Hinv as (Hb & Hm & Hs & Hp & Ha & Hn & Hr).
  destruct (resume_success_facts now d s Hs) as (Hh' & Hm' & Hp' & Ha' & Hn' & Hr').
  cbv zeta in Hp', Ha', Hn'.
  split; [by apply resume_bounded|].
  split; [by rewrite Hm'|].
  split; [by apply resume_shapes|].
  rewrite Hp', Ha', Hn', Hr'.
  split; [by apply chart_aligned_redrawn_performance|].
  split; [by apply chart_aligned_redrawn_appPerformance|].
  split; [by apply chart_aligned_redrawn_network|].
  by apply resource_wellformed_set.
Qed.

(** The handlers that can change the buffer, the bound or the charts. *)
Lemma step_cases s s' :
  step s s' ->
  unchanged s s'
  \/ s' = initializeEnhancedDashboard s
  \/ (exists now resp, s' = updateEnhancedDashboard_resume now resp s)
  \/ s' = clearData s
  \/ (exists tr, s' = updateChartTimeRange tr s).
Proof.
  intros Hstep. destruct Hstep.
  - right. by left.
  - left. unfold updateEnhancedDashboard_enter. auto with frame.
  - right. right. left. by eexists _, _.
  - left. unfold refreshMetrics, updateEnhancedDashboard_enter. auto with frame.
  - right. right. right. by left.
  - right. right. right. right. by eexists.
  - left. unfold generateTraffic_enter in *.
    destruct (document s !! target) as [e|]; cbn in *; [|done]. simplify_eq.
    apply (unchanged_fetch_all (fun url : string => url)). auto with frame.
  - left. unfold generateTraffic_resume. cbv zeta. case_match; auto with frame.
  - left. unfold simulateWork_enter in *.
    destruct (document s !! target) as [e|]; cbn in *; [|done]. simplify_eq.
    auto with frame.
  - left. unfold simulateWork_resume. cbv zeta. repeat case_match; auto with frame.
  - left. unfold stressTest_enter in *.
    destruct (document s !! target) as [e|]; cbn in *; [|done]. simplify_eq.
    auto 10 with frame.
  - left. unfold stressTest_resume. cbv zeta. case_match; auto with frame.
  - left. unfold memoryTest. auto with frame.
  - left. unfold memoryTest_done. auto with frame.
Qed.

Lemma initial_invariant page : dashboard_invariant (initial page).
Proof.
  split; [unfold history_bounded; cbn; lia|].
  split; [cbn; unfold selectable_bounds; rewrite !elem_of_cons; auto|].
  split; [apply initial_shapes|].
  cbn. unfold chart_aligned, resource_wellformed.
  split; [|split; [|split]]; intros ch Hch; discriminate.
Qed.

(** X4. In every state the script can reach from the loaded page, whatever
    the handlers that ran and the outcomes of their requests: the buffer is
    within the bound; the bound is 20, 50 or 150; each chart has the
    datasets of its set-up; in each history chart every series has one
    value per label; the resource chart has four labels and four values. *)
Theorem reachable_dashboard_invariant (s : State) :
  reachable s -> dashboard_invariant s.
Proof.
  induction 1 as [page | s s' _ IH Hstep]; [apply initial_invariant|].
  destruct (step_cases s s' Hstep)
    as [Hun | [-> | [(now & resp & ->) | [-> | (tr & ->)]]]].
  - by apply (dashboard_invariant_unchanged s).
  - by apply initialize_invariant.
  - by apply resume_invariant.
  - by apply clearData_invariant.
  - by apply updateChartTimeRange_invariant.
Qed.

End ReachableInvariant.

Lemma reachable_dashboard_invariant_witness :
  reachable (H := sample_format) sample_dashboard
  /\ dashboard_invariant sample_dashboard.
Proof.
  assert (Hreach : reachable (H := sample_format) sample_dashboard).
  { apply (reachable_step (initial sample_canvases)).
    - apply reachable_initial.
    - apply step_initialize. }
  split; [exact Hreach|].
  exact (reachable_dashboard_invariant (H := sample_format) sample_dashboard Hreach).
Defined.

(** ** Time range, again *)

Lemma select_bound_table tr B s :
  (tr, B) ∈ time_ranges -> maxHistoryPoints (select_bound tr s) = B /\ 0 < B.
Proof.
  unfold time_ranges. rewrite !elem_of_cons, elem_of_nil.
  intros [Heq|[Heq|[Heq|[]]]]; injection Heq as -> ->; cbn; lia.
Qed.

Lemma updateChartTimeRange_table tr B s :
  (tr, B) ∈ time_ranges ->
  maxHistoryPoints (updateChartTimeRange tr s) = B
  /\ systemHistory (updateChartTimeRange tr s)
     = drop (length (systemHistory s) - B) (systemHistory s).
Proof.
  intros Hin. destruct (select_bound_table tr B s Hin) as [Hsel HB].
  split; [by rewrite updateChartTimeRange_bound|].
  rewrite updateChartTimeRange_history; rewrite Hsel; done.
Qed.

Lemma updateChartTimeRange_frame tr s :
  requests (updateChartTimeRange tr s) = requests s
  /\ toasts (updateChartTimeRange tr s)
     = (toasts s ++ [banner ("Time range set to " ++ tr) "info"])%list.
Proof.
  unfold updateChartTimeRange. cbv zeta.
  rewrite showToast_requests, showToast_toasts.
  unfold select_bound. by repeat case_match.
Qed.

(** X9. The time-range action, whatever the value of [timeRange], changes
    no chart and sends no request: it shows one notification and, at most,
    trims the buffer.  The charts keep the points they had, also those the
    buffer just lost, until a later refresh redraws them. *)
Theorem updateChartTimeRange_never_redraws (tr : string) (s : State) :
  let s' := updateChartTimeRange tr s in
  performanceChart s' = performanceChart s
  /\ resourceChart s' = resourceChart s
  /\ appPerformanceChart s' = appPerformanceChart s
  /\ networkChart s' = networkChart s
  /\ requests s' = requests s
  /\ timers s' = timers s
  /\ toasts s' = (toasts s ++ [banner ("Time range set to " ++ tr) "info"])%list.
Proof.
  intros s'. unfold s'.
  destruct (updateChartTimeRange_charts tr s) as (Hp & Hr & Ha & Hn).
  destruct (updateChartTimeRange_frame tr s) as [Hreq Htoasts].
  split; [exact Hp|]. split; [exact Hr|]. split; [exact Ha|]. split; [exact Hn|].
  split; [exact Hreq|]. split; [|exact Htoasts].
  unfold updateChartTimeRange, select_bound, showToast, createToastContainer.
  cbv zeta. by repeat case_match.
Qed.

(** X10. Two recognized time-range changes in a row leave the bound of the
    second and the newest [min len (min B1 B2)] points: what the smaller
    bound cut is not brought back by a larger one, and choosing the same
    range twice changes nothing more. *)
Theorem updateChartTimeRange_twice (tr1 tr2 : string) (B1 B2 : nat) (s : State) :
  (tr1, B1) ∈ time_ranges ->
  (tr2, B2) ∈ time_ranges ->
  let len := length (systemHistory s) in
  let s2 := updateChartTimeRange tr2 (updateChartTimeRange tr1 s) in
  maxHistoryPoints s2 = B2
  /\ systemHistory s2 = drop (len - len `min` (B1 `min` B2)) (systemHistory s)
  /\ length (systemHistory s2) = len `min` (B1 `min` B2)
  /\ (B1 <= B2 -> systemHistory s2 = systemHistory (updateChartTimeRange tr1 s)).
Proof.
  intros H1 H2 len s2.
  destruct (updateChartTimeRange_table tr1 B1 s H1) as [Hb1 Hh1].
  destruct (updateChartTimeRange_table tr2 B2 (updateChartTimeRange tr1 s) H2)
    as [Hb2 Hh2].
  fold s2 in Hb2, Hh2. fold len in Hh1.
  assert (Hs2 : systemHistory s2 = drop (len - len `min` (B1 `min` B2)) (systemHistory s)).
  { rewrite Hh2, Hh1, length_drop, drop_drop. fold len. f_equal. lia. }
  split; [exact Hb2|]. split; [exact Hs2|].
  split; [rewrite Hs2, length_drop; fold len; lia|].
  intros Hle. rewrite Hs2, Hh1. f_equal. lia.
Qed.

Lemma updateChartTimeRange_twice_witness :
  ("1m", 20) ∈ time_ranges
  /\ ("15m", 150) ∈ time_ranges
  /\ maxHistoryPoints
       (updateChartTimeRange "15m" (updateChartTimeRange "1m" sample_long_history)) = 150
  /\ length (systemHistory
               (updateChartTimeRange "15m" (updateChartTimeRange "1m" sample_long_history)))
     = 20.
Proof.
  assert (H1 : ("1m", 20) ∈ time_ranges) by (apply list_elem_of_here).
  assert (H2 : ("15m", 150) ∈ time_ranges)
    by (do 2 apply list_elem_of_further; apply list_elem_of_here).
  split; [exact H1|]. split; [exact H2|].
  destruct (updateChartTimeRange_twice "1m" "15m" 20 150 sample_long_history H1 H2)
    as (Hb & _ & Hlen & _).
  split; [exact Hb | exact Hlen].
Defined.

(** ** Uptime, again *)

Lemma uptime_units (s : N) :
  (s / 86400 = s / 60 / 1440
   /\ (s mod 86400) / 3600 = (s / 60 / 60) mod 24
   /\ (s mod 3600) / 60 = (s / 60) mod 60)%N.
Proof.
  split; [|split].
  - by rewrite N.Div0.div_div.
  - change 86400%N with (3600 * 24)%N.
    rewrite N.Div0.mod_mul_r, N.mul_comm, N.div_add by lia.
    rewrite N.div_small by (apply N.mod_upper_bound; lia).
    by rewrite N.Div0.div_div.
  - change 3600%N with (60 * 60)%N.
    rewrite N.Div0.mod_mul_r, N.mul_comm, N.div_add by lia.
    by rewrite N.div_small by (apply N.mod_upper_bound; lia).
Qed.

(** X17. On uptimes below 2^53 seconds, [formatUptime] depends on the
    whole minutes only: two uptimes within the same minute are printed
    alike (the seconds are dropped, not rounded). *)
Theorem formatUptime_drops_seconds (s1 s2 : N) :
  Js.safe_integer s1 ->
  Js.safe_integer s2 ->
  (s1 / 60 = s2 / 60)%N -> formatUptime s1 = formatUptime s2.
Proof.
  intros _ _ Heq. unfold formatUptime. cbv zeta.
  destruct (uptime_units s1) as (-> & -> & ->).
  destruct (uptime_units s2) as (-> & -> & ->).
  by rewrite Heq.
Qed.

Lemma formatUptime_drops_seconds_witness :
  Js.safe_integer 3660
  /\ Js.safe_integer 3719
  /\ (3660 / 60 = 3719 / 60)%N
  /\ formatUptime 3660 = formatUptime 3719
  /\ formatUptime 3719 = "1h 1m".
Proof.
  assert (H1 : Js.safe_integer 3660) by reflexivity.
  assert (H2 : Js.safe_integer 3719) by reflexivity.
  assert (Heq : (3660 / 60 = 3719 / 60)%N) by reflexivity.
  split; [exact H1|]. split; [exact H2|]. split; [exact Heq|].
  split; [exact (formatUptime_drops_seconds 3660 3719 H1 H2 Heq) | reflexivity].
Defined.

(** ** Outcomes of the demo actions *)

Lemma Promise_all_fulfilled {A} (ps : list (Js.settled A)) :
  is_fulfilled (Js.Promise_all ps) = forallb is_fulfilled ps.
Proof.
  induction ps as [|p ps IH]; [reflexivity|].
  destruct p as [a|]; cbn; [|reflexivity].
  rewrite <- IH. by destruct (Js.Promise_all ps).
Qed.

Lemma restore_toasts p s : toasts (restore p s) = toasts s.
Proof. reflexivity. Qed.

(** X11. When a button handler resumes it shows exactly one notification,
    after those already shown.  Generate traffic reports success whatever
    its requests did; simulate work reports success only when both the
    request and the reading of its body succeeded; the stress test reports
    success only when every one of its requests succeeded, and failure as
    soon as one was rejected. *)
Theorem handlers_report_outcome (p : Pending) (s : State) :
  (forall count outcomes,
      toasts (generateTraffic_resume count p outcomes s)
      = (toasts s
         ++ [banner (Js.show_nat count ++ " requests completed!") "success"])%list)
  /\ (forall resp,
        toasts (simulateWork_resume p resp s)
        = (toasts s
           ++ [match resp with
               | Js.Fulfilled (Js.Fulfilled _) =>
                   banner "Work simulation completed!" "success"
               | _ => banner "Error simulating work" "error"
               end])%list)
  /\ (forall outcomes,
        toasts (stressTest_resume p outcomes s)
        = (toasts s
           ++ [if forallb is_fulfilled outcomes
               then banner "CPU stress test completed!" "warning"
               else banner "Stress test failed" "error"])%list).
Proof.
  split; [|split].
  - intros count outcomes. unfold generateTraffic_resume.
    destruct (Promise_all_caught outcomes) as [values ->].
    rewrite restore_toasts. unfold setTimeout. cbn [toasts set_timers].
    apply showToast_toasts.
  - intros resp. unfold simulateWork_resume. rewrite restore_toasts.
    destruct resp as [[u|]|]; apply showToast_toasts.
  - intros outcomes. unfold stressTest_resume. rewrite restore_toasts.
    rewrite <- Promise_all_fulfilled.
    destruct (Js.Promise_all outcomes); apply showToast_toasts.
Qed.

(** X18. From a control of the page, simulate work sends one request to
    the work endpoint and the stress test sends five, all before the
    handler is suspended; on entry they show no notification and leave the
    buffer, its bound and the charts as they are. *)
Theorem work_handlers_requests (target : string) (b : Element) (s : State) :
  document s !! target = Some b ->
  (exists p s1,
      simulateWork_enter target s = Some (p, s1)
      /\ requests s1 = (requests s ++ ["/api/simulate-work"])%list
      /\ toasts s1 = toasts s /\ unchanged s s1)
  /\ (exists p s1,
        stressTest_enter target s = Some (p, s1)
        /\ requests s1 = (requests s ++ replicate 5 "/api/simulate-work")%list
        /\ toasts s1 = toasts s /\ unchanged s s1).
Proof.
  intros Hb. split.
  - unfold simulateWork_enter. rewrite Hb. cbn [mbind option_bind].
    eexists _, _. split; [reflexivity|]. by repeat split.
  - unfold stressTest_enter. rewrite Hb. cbn [mbind option_bind].
    eexists _, _. split; [reflexivity|].
    split; [cbn; unfold Js.push; by rewrite <- !app_assoc|].
    by repeat split.
Qed.

Lemma work_handlers_requests_witness :
  document (initial sample_page) !! "action-button" = Some sample_button
  /\ exists p s1,
       stressTest_enter "action-button" (initial sample_page) = Some (p, s1)
       /\ requests s1 = replicate 5 "/api/simulate-work".
Proof.
  assert (Hb : document (initial sample_page) !! "action-button" = Some sample_button)
    by (vm_compute; reflexivity).
  split; [exact Hb|].
  destruct (work_handlers_requests "action-button" sample_button
              (initial sample_page) Hb) as (_ & p & s1 & Henter & Hreq & _).
  exists p, s1. split; [exact Henter | exact Hreq].
Defined.

(** X12. The memory test talks to no server and touches neither the
    buffer nor the charts: it shows one notification and arms one timer of
    3000 ms, and the timer's callback shows a second notification. *)
Theorem memoryTest_is_local (s : State) :
  let s1 := memoryTest s in
  let s2 := memoryTest_done s1 in
  requests s1 = requests s
  /\ requests s2 = requests s
  /\ unchanged s s2
  /\ timers s1 = (timers s ++ [(CbMemoryTestDone, 3000)])%list
  /\ timers s2 = timers s1
  /\ toasts s2
     = (toasts s
        ++ [banner "Memory usage will increase temporarily" "info";
            banner "Memory test completed" "success"])%list.
Proof.
  intros s1 s2. unfold s2, s1, memoryTest_done, memoryTest.
  rewrite !showToast_toasts, !showToast_requests. cbn [toasts requests setTimeout set_timers].
  rewrite !showToast_toasts, !showToast_requests.
  split; [reflexivity|]. split; [reflexivity|].
  split; [auto with frame|].
  split; [|split; [|by rewrite <- app_assoc]].
  - unfold setTimeout, showToast, createToastContainer. by case_match.
  - unfold setTimeout, showToast, createToastContainer. by repeat case_match.
Qed.

(** ** Initialisation, manual refresh, clearing *)

Lemma setups_fields s :
  let s' := initializeEnhancedDashboard s in
  performanceChart s'
    = chart_after_setup (document s !! "performanceChart") (performance_of [])
        (performanceChart s)
  /\ resourceChart s'
     = chart_after_setup (document s !! "resourceChart")
         {| labels := ["CPU Usage"; "Memory Usage"; "Disk Usage"; "Available"];
            datasets := [ {| data := [0; 0; 0; 100]%float |} ] |}
         (resourceChart s)
  /\ appPerformanceChart s'
     = chart_after_setup (document s !! "appPerformanceChart") (appPerformance_of [])
         (appPerformanceChart s)
  /\ networkChart s'
     = chart_after_setup (document s !! "networkChart") (network_of [])
         (networkChart s)
  /\ document s' = document s
  /\ toasts s' = toasts s
  /\ requests s' = (requests s ++ ["/api/dashboard-data"])%list.
Proof.
  unfold initializeEnhancedDashboard, setupEnhancedPerformanceChart,
    setupEnhancedResourceChart, setupAppPerformanceChart, setupNetworkChart,
    chart_after_setup.
  destruct s as [pc rc ac nc h m doc ts cs rs tm].
  cbn [document performanceChart resourceChart appPerformanceChart networkChart
         toasts requests set_performanceChart set_resourceChart
         set_appPerformanceChart set_networkChart].
  destruct (doc !! "performanceChart");
    cbn [document performanceChart resourceChart appPerformanceChart networkChart
           toasts requests set_performanceChart set_resourceChart
           set_appPerformanceChart set_networkChart];
    destruct (doc !! "resourceChart");
    cbn [document performanceChart resourceChart appPerformanceChart networkChart
           toasts requests set_performanceChart set_resourceChart
           set_appPerformanceChart set_networkChart];
    destruct (doc !! "appPerformanceChart");
    cbn [document performanceChart resourceChart appPerformanceChart networkChart
           toasts requests set_performanceChart set_resourceChart
           set_appPerformanceChart set_networkChart];
    destruct (doc !! "networkChart");
    by repeat split.
Qed.

(** X14. Initialisation gives each chart variable a new chart when the
    page has its canvas (empty for the three history charts, with the four
    labels and the values 0, 0, 0, 100 for the resource chart) and leaves
    it as it was when the canvas is missing; it sends the one request of
    the first refresh.  It keeps the history buffer and its bound, so
    after a second initialisation the history charts are empty while the
    buffer is not, until the next refresh redraws them. *)
Theorem initialize_sets_up_present_canvases (s : State) :
  let s' := initializeEnhancedDashboard s in
  performanceChart s'
    = chart_after_setup (document s !! "performanceChart") (performance_of [])
        (performanceChart s)
  /\ resourceChart s'
     = chart_after_setup (document s !! "resourceChart")
         {| labels := ["CPU Usage"; "Memory Usage"; "Disk Usage"; "Available"];
            datasets := [ {| data := [0; 0; 0; 100]%float |} ] |}
         (resourceChart s)
  /\ appPerformanceChart s'
     = chart_after_setup (document s !! "appPerformanceChart") (appPerformance_of [])
         (appPerformanceChart s)
  /\ networkChart s'
     = chart_after_setup (document s !! "networkChart") (network_of [])
         (networkChart s)
  /\ systemHistory s' = systemHistory s
  /\ maxHistoryPoints s' = maxHistoryPoints s
  /\ document s' = document s
  /\ requests s' = (requests s ++ ["/api/dashboard-data"])%list.
Proof.
  intros s'. destruct (setups_fields s) as (Hp & Hr & Ha & Hn & Hd & _ & Hreq).
  destruct (setups_buffer s) as [Hh Hm].
  by repeat split.
Qed.

Section ManualRefresh.
Context `{Js.NumberFormat}.

(** X13. The refresh button shows "All metrics refreshed!" as soon as the
    request is sent, before any answer: the buffer and the charts are still
    as they were at that time, and when the request then fails the
    notification stays beside the Connection Error badge. *)
Theorem refreshMetrics_toasts_before_outcome (now : string) (s : State) :
  toasts (refreshMetrics s)
    = (toasts s ++ [banner "All metrics refreshed!" "info"])%list
  /\ requests (refreshMetrics s) = (requests s ++ ["/api/dashboard-data"])%list
  /\ unchanged s (refreshMetrics s)
  /\ Forall (fun resp =>
               let s' := updateEnhancedDashboard_resume now resp (refreshMetrics s) in
               toasts s' = (toasts s ++ [banner "All metrics refreshed!" "info"])%list
               /\ unchanged s s'
               /\ document s' !! "status-badge"
                  = badge_error <$> document s !! "status-badge")
            refresh_failures.
Proof.
  assert (Ht : toasts (refreshMetrics s)
               = (toasts s ++ [banner "All metrics refreshed!" "info"])%list).
  { unfold refreshMetrics. cbv zeta. by rewrite showToast_toasts. }
  assert (Hun : unchanged s (refreshMetrics s)).
  { unfold refreshMetrics, updateEnhancedDashboard_enter. auto with frame. }
  split; [exact Ht|].
  split; [unfold refreshMetrics; cbv zeta; by rewrite showToast_requests|].
  split; [exact Hun|].
  apply Forall_forall. intros resp Hresp. cbv zeta.
  rewrite resume_failure by done.
  split; [exact Ht|]. split; [exact Hun|].
  cbn [document set_document console_log set_console].
  rewrite lookup_alter_eq. f_equal.
  unfold refreshMetrics. cbv zeta.
  destruct (decide (is_Some (document (updateEnhancedDashboard_enter s)
                             !! "status-badge"))) as [Hsome|Hnone].
  - by rewrite showToast_lookup.
  - unfold showToast, createToastContainer.
    destruct (document (updateEnhancedDashboard_enter s) !! "toast-container");
      cbn; [done|].
    by rewrite lookup_insert_ne.
Qed.

Lemma updateAllCharts_presence d s :
  chart_presence (updateAllCharts d s) = chart_presence s.
Proof.
  unfold chart_presence, updateAllCharts. cbv zeta.
  destruct s as [pc rc ac nc h m doc ts cs rs tm]. cbn.
  destruct pc, rc, ac, nc, h; reflexivity.
Qed.

Lemma chart_presence_set_document m t :
  chart_presence (set_document m t) = chart_presence t.
Proof. reflexivity. Qed.

Lemma chart_presence_same s s' :
  same_charts s s' -> chart_presence s' = chart_presence s.
Proof. unfold chart_presence. intros (-> & -> & -> & ->). done. Qed.

(** X15. Only the set-up creates charts: a refresh (with any outcome), a
    clear and a time-range change leave each of the four chart variables
    defined or undefined as it was, so that a chart whose canvas was
    missing at initialisation is skipped by every later redraw and
    clear. *)
Theorem redraw_and_clear_create_no_chart
    (now : string) (resp : Js.settled (Js.settled Snapshot)) (tr : string) (s : State) :
  chart_presence (updateEnhancedDashboard_resume now resp s) = chart_presence s
  /\ chart_presence (clearData s) = chart_presence s
  /\ chart_presence (updateChartTimeRange tr s) = chart_presence s.
Proof.
  split; [|split].
  - destruct resp as [[d|]|]; try reflexivity.
    rewrite resume_success_badge, chart_presence_set_document.
    unfold redrawn_state. rewrite updateAllCharts_presence.
    transitivity (chart_presence (cards_written d s)).
    + apply chart_presence_same, storeSystemHistory_charts.
    + apply chart_presence_same, cards_written_unchanged.
  - destruct (clearData_fields s) as (_ & Hp & Hr & Ha & Hn).
    unfold chart_presence. rewrite Hp, Hr, Ha, Hn.
    by destruct (performanceChart s), (appPerformanceChart s), (networkChart s).
  - apply chart_presence_same, updateChartTimeRange_charts.
Qed.

(** X16. A clear followed by a refresh that receives its snapshot, on
    charts with the datasets of their set-up and under a positive bound,
    leaves exactly the new point: in the buffer, and in each history chart
    that exists (one label, one value per series). *)
Theorem clear_then_refresh_shows_one_point
    (now : string) (d : Snapshot) (s : State) :
  chart_shapes s ->
  0 < maxHistoryPoints s ->
  let s' := updateEnhancedDashboard_resume now (Js.Fulfilled (Js.Fulfilled d))
              (clearData s) in
  let point := historyPoint now d in
  systemHistory s' = [point]
  /\ performanceChart s' = (fun _ => performance_of [point]) <$> performanceChart s
  /\ appPerformanceChart s'
     = (fun _ => appPerformance_of [point]) <$> appPerformanceChart s
  /\ networkChart s' = (fun _ => network_of [point]) <$> networkChart s.
Proof.
  intros Hshapes Hpos s' point.
  destruct (clearData_fields s) as (Hm & Hp & Hr & Ha & Hn).
  assert (Hh : systemHistory (clearData s) = []).
  { unfold clearData. cbv zeta. by rewrite showToast_history. }
  destruct (resume_success_facts now d (clearData s) (clearData_shapes s Hshapes))
    as (Hh' & _ & Hp' & Ha' & Hn' & _).
  fold s' in Hh', Hp', Ha', Hn'. cbv zeta in Hp', Ha', Hn'.
  assert (Hone : systemHistory s' = [point]).
  { rewrite Hh', storeSystemHistory_history, Hh, Hm. cbv zeta.
    case_match eqn:Hcmp; [|reflexivity].
    apply Nat.ltb_lt in Hcmp. cbn in Hcmp. lia. }
  split; [exact Hone|].
  rewrite Hp', Ha', Hn', Hone, Hp, Ha, Hn.
  by destruct (performanceChart s), (appPerformanceChart s), (networkChart s).
Qed.

End ManualRefresh.

Lemma sample_refreshed_shapes : chart_shapes sample_refreshed.
Proof.
  unfold sample_refreshed.
  do 2 apply (resume_shapes (H := sample_format)).
  apply setups_shapes, initial_shapes.
Qed.

Lemma clear_then_refresh_shows_one_point_witness :
  chart_shapes sample_refreshed
  /\ 0 < maxHistoryPoints sample_refreshed
  /\ length (systemHistory sample_refreshed) = 2
  /\ (labels <$> performanceChart sample_refreshed) = Some ["09:59:50"; "09:59:55"]
  /\ systemHistory
       (updateEnhancedDashboard_resume (H := sample_format) "10:00:00"
          (Js.Fulfilled (Js.Fulfilled (sample_snapshot 40 30 10)))
          (clearData sample_refreshed))
     = [historyPoint "10:00:00" (sample_snapshot 40 30 10)]
  /\ performanceChart
       (updateEnhancedDashboard_resume (H := sample_format) "10:00:00"
          (Js.Fulfilled (Js.Fulfilled (sample_snapshot 40 30 10)))
          (clearData sample_refreshed))
     = Some (performance_of [historyPoint "10:00:00" (sample_snapshot 40 30 10)]).
Proof.
  pose proof sample_refreshed_shapes as Hshapes.
  assert (Hpos : 0 < maxHistoryPoints sample_refreshed) by (vm_compute; lia).
  split; [exact Hshapes|]. split; [exact Hpos|].
  split; [vm_compute; reflexivity|]. split; [vm_compute; reflexivity|].
  destruct (clear_then_refresh_shows_one_point (H := sample_format) "10:00:00"
              (sample_snapshot 40 30 10) sample_refreshed Hshapes Hpos)
    as (Hh & Hp & _).
  split; [exact Hh|].
  rewrite Hp. vm_compute. reflexivity.
Defined.
